(** * PeerChain (DoucyA): ledger engine, validator registry and peer sync

    A shallow embedding of the JavaScript sources

      - [src/blockchain/transaction.js]  (module [Transaction])
      - [src/blockchain/block.js]        (module [Block])
      - [src/blockchain/blockchain.js]   (module [Blockchain])
      - [src/blockchain/validator.js]    (module [ValidatorManager])
      - [src/network/p2p-node.js]        (module [P2PNode])
      - [src/network/node.js]            (module [Node])

    Conventions.
    - A JavaScript number that holds an amount of DOU is a binary64
      floating-point number ([float], the primitive floats of the standard
      library), with the IEEE 754 arithmetic and comparisons that JavaScript
      uses: every sum, difference and product is rounded, and a comparison
      with [NaN] is false.  Heights, timestamps and counters are integers
      ([Z], [nat]).
    - [null] is [None]; an address that may be [null] is an [option string].
    - The LevelDB store is split by key prefix into one finite map per
      prefix ([BALANCE_], [BLOCK_], [BLOCK_HEIGHT_], ...).
    - An ES6 [Map] is an association list in insertion order ([JsMap]).
    - A method that can throw runs in the monad [M]: it returns a value or
      throws, and in both cases hands back the state reached so far, because
      writes made before a [throw] are not rolled back.  An [await] is the
      sequencing of the monad.
    - The answers of a remote peer are given by a [Peer] record; every
      request sent, every block passed to [saveBlock] and every transaction
      published is appended to the [events] of the node.
    - SHA-256 and the rendering of JSON scalars are taken from the runtime
      (class [Runtime]). *)

From Stdlib Require Import ZArith Floats Lia Ascii String.
From stdpp Require Import gmap strings list fin_maps numbers pretty.

Set Warnings "-register-all".
Set Warnings "-inexact-float".
Local Open Scope string_scope.
Local Open Scope list_scope.

(** ** JavaScript numbers *)

Module Num.

(** [if (x)] on a number: [0], [-0] and [NaN] are falsy. *)
Definition truthy (x : float) : bool := negb (x =? 0)%float && negb (is_nan x).

(** [x || 0] on a number. *)
Definition or_zero (x : float) : float := if truthy x then x else 0%float.

(** What [parseFloat(await db.get(key))] gives after [db.put(key, x)].  The
    database encodes its values as JSON, which writes [NaN] and the
    infinities as [null] and [-0] as [0]; [parseFloat] turns [null] into
    [NaN]. *)
Definition stored (x : float) : float :=
  if is_nan x || is_infinity x then nan
  else if (x =? 0)%float then 0%float
  else x.

(** The number that holds the integer [z]: the nearest binary64 value. *)
Definition of_Z (z : Z) : float := SF2Prim (binary_normalize prec emax z 0 false).

End Num.

(** ** The runtime: hashing and JSON scalars *)

Class Runtime := {
  (** [crypto.createHash('sha256').update(s).digest('hex')] *)
  sha256_hex : string → string;
  (** [JSON.stringify] of a number *)
  number_to_json : float → string;
  (** [JSON.stringify] of a string: quotes and escapes *)
  string_to_json : string → string;
  (** [Address.sign(data, privateKey)] *)
  ec_sign : string → string → string;
  (** [Address.verifySignature(data, signature, publicKey)] *)
  ec_verify : string → string → string → bool
}.

(** Two different strings with the same digest. *)
Definition collision `{Runtime} (s1 s2 : string) : Prop :=
  s1 ≠ s2 ∧ sha256_hex s1 = sha256_hex s2.

(** The idealised hash: no two different strings have the same digest. *)
Definition collision_free `{Runtime} : Prop :=
  ∀ s1 s2 : string, sha256_hex s1 = sha256_hex s2 → s1 = s2.

(** ** JavaScript values and [JSON.stringify] *)

Module Json.

Inductive value :=
| Undefined
| Null
| Bool (b : bool)
| Number (x : float)
| String (s : string)
| Array (items : list value)
| Object (fields : list (string * value)).

(** [xs.join(",")] *)
Fixpoint join_comma (xs : list string) : string :=
  match xs with
  | [] => ""
  | [x] => x
  | x :: rest => x +:+ "," +:+ join_comma rest
  end.

Section Stringify.
Context `{Runtime}.

(** [JSON.stringify v]; [None] is the JavaScript [undefined] that
    [JSON.stringify(undefined)] returns.  A property whose value is
    [undefined] is left out of the object. *)
Fixpoint stringify (v : value) : option string :=
  match v with
  | Undefined => None
  | Null => Some "null"
  | Bool b => Some (if b then "true" else "false")
  | Number x => Some (number_to_json x)
  | String s => Some (string_to_json s)
  | Array items =>
      Some ("[" +:+
            join_comma
              ((fix elements (xs : list value) : list string :=
                  match xs with
                  | [] => []
                  | x :: rest => default "null" (stringify x) :: elements rest
                  end) items)
            +:+ "]")
  | Object fields =>
      Some ("{" +:+
            join_comma
              ((fix members (fs : list (string * value)) : list string :=
                  match fs with
                  | [] => []
                  | (k, x) :: rest =>
                      match stringify x with
                      | Some s => (string_to_json k +:+ ":" +:+ s) :: members rest
                      | None => members rest
                      end
                  end) fields)
            +:+ "}")
  end.

(** The rendered properties of an object, in order. *)
Fixpoint members (fs : list (string * value)) : list string :=
  match fs with
  | [] => []
  | (k, x) :: rest =>
      match stringify x with
      | Some s => (string_to_json k +:+ ":" +:+ s) :: members rest
      | None => members rest
      end
  end.

(** [JSON.stringify] of an object literal. *)
Definition stringify_object (fields : list (string * value)) : string :=
  "{" +:+ join_comma (members fields) +:+ "}".

End Stringify.

(** [x || 0] for a numeric property [x] read off an object: the number
    itself when it is truthy, [0] when the property is missing,
    [undefined], [null], [false], the empty string, [0], [-0] or [NaN].
    The record fields that receive the result are numbers; truthy values
    that are not numbers are outside the typed model and read as [0]. *)
Definition number_or_zero (o : option value) : float :=
  match o with
  | Some (Number x) => Num.or_zero x
  | _ => 0%float
  end.

(** [x === "literal"] for a property [x] read off an object *)
Definition is_string (o : option value) (literal : string) : bool :=
  match o with
  | Some (String s) => bool_decide (s = literal)
  | _ => false
  end.

(** [obj.key] *)
Fixpoint prop (fields : list (string * value)) (key : string) : option value :=
  match fields with
  | [] => None
  | (k, x) :: rest => if decide (k = key) then Some x else prop rest key
  end.

End Json.

(** ** [config.js] *)

Module config.
Definition validatorMinDeposit : float := 50%float.
Definition validatorDepositIncreaseRate : float := 0.1%float.
Definition sendReward : float := 0.75%float.
Definition receiveReward : float := 0.25%float.
Definition nonWhitelistedFee : float := 0.75%float.
Definition maxMessagesPerHour : nat := 200.
Definition maxMessagesToAddressPerHour : nat := 30.
Definition validatorAPY : float := 0.17%float.
End config.

(** ** [transaction.js] *)

Module Transaction.

Record t := mk {
  type : string;
  from : option string;
  to : option string;
  amount : float;
  fee : float;
  data : list (string * Json.value);
  timestamp : Z;
  hash : string;
  signature : option string;
  senderReward : float;
  receiverReward : float
}.

Definition address_json (a : option string) : Json.value :=
  match a with
  | Some s => Json.String s
  | None => Json.Null
  end.

Section Hashing.
Context `{Runtime}.

(** The object literal [txData] of [calculateHash].  The two reward
    properties are passed as JavaScript values because [calculateHash] also
    runs inside the constructor, before they are assigned. *)
Definition txData (type : string) (from to : option string) (amount fee : float)
    (data : list (string * Json.value)) (timestamp : Z)
    (senderReward receiverReward : Json.value) : list (string * Json.value) :=
  [ ("type", Json.String type);
    ("from", address_json from);
    ("to", address_json to);
    ("amount", Json.Number amount);
    ("fee", Json.Number fee);
    ("data", Json.Object data);
    ("timestamp", Json.Number (Num.of_Z timestamp));
    ("senderReward", senderReward);
    ("receiverReward", receiverReward) ].

(** The string that [calculateHash] feeds to SHA-256 for a finished
    transaction object. *)
Definition preimage (tx : t) : string :=
  Json.stringify_object
    (txData (type tx) (from tx) (to tx) (amount tx) (fee tx) (data tx)
       (timestamp tx)
       (Json.Number (senderReward tx)) (Json.Number (receiverReward tx))).

Definition calculateHash (tx : t) : string := sha256_hex (preimage tx).

(** [this.hash === this.calculateHash()] *)
Definition verifyHash (tx : t) : bool :=
  bool_decide (hash tx = calculateHash tx).

(** The string hashed by the constructor: [this.senderReward] and
    [this.receiverReward] are still [undefined] on the line
    [this.hash = this.calculateHash()]. *)
Definition constructor_preimage (type : string) (from to : option string)
    (amount fee : float) (data : list (string * Json.value)) (now : Z) : string :=
  Json.stringify_object
    (txData type from to amount fee data now Json.Undefined Json.Undefined).

(** [new Transaction(type, from, to, amount, fee, data)], with [now] the
    value of [Date.now()]. *)
Definition new (type : string) (from to : option string) (amount fee : float)
    (data : list (string * Json.value)) (now : Z) : t :=
  {| type := type;
     from := from;
     to := to;
     amount := amount;
     fee := fee;
     data := data;
     timestamp := now;
     hash := sha256_hex (constructor_preimage type from to amount fee data now);
     signature := None;
     senderReward := Json.number_or_zero (Json.prop data "senderReward");
     receiverReward := Json.number_or_zero (Json.prop data "receiverReward") |}.

(** [tx.hash = tx.calculateHash()], as the reward paths of
    [blockchain.js] do right after construction. *)
Definition rehash (tx : t) : t :=
  {| type := type tx; from := from tx; to := to tx; amount := amount tx;
     fee := fee tx; data := data tx; timestamp := timestamp tx;
     hash := calculateHash tx;
     signature := signature tx;
     senderReward := senderReward tx; receiverReward := receiverReward tx |}.

(** [tx.fee = value], [tx.senderReward = value], ... on a finished object:
    the stored [hash] stays as it is. *)
Definition with_fee (value : float) (tx : t) : t :=
  {| type := type tx; from := from tx; to := to tx; amount := amount tx;
     fee := value; data := data tx; timestamp := timestamp tx; hash := hash tx;
     signature := signature tx;
     senderReward := senderReward tx; receiverReward := receiverReward tx |}.

Definition with_rewards (sender receiver : float) (tx : t) : t :=
  {| type := type tx; from := from tx; to := to tx; amount := amount tx;
     fee := fee tx; data := data tx; timestamp := timestamp tx; hash := hash tx;
     signature := signature tx;
     senderReward := sender; receiverReward := receiver |}.

(** [await tx.sign(async data => Address.sign(data, privateKey))] *)
Definition sign (privateKey : string) (tx : t) : t :=
  {| type := type tx; from := from tx; to := to tx; amount := amount tx;
     fee := fee tx; data := data tx; timestamp := timestamp tx; hash := hash tx;
     signature := Some (ec_sign (hash tx) privateKey);
     senderReward := senderReward tx; receiverReward := receiverReward tx |}.

(** [Transaction.createTransfer(from, to, amount, fee)] *)
Definition createTransfer (from to : string) (amount fee : float) (now : Z) : t :=
  new "TRANSFER" (Some from) (Some to) amount fee [] now.

(** [Transaction.createMessage(from, to, message, isWhitelisted)].  The
    call passes a seventh argument [{senderReward, receiverReward}] that
    the constructor, which has six parameters, does not read. *)
Definition createMessage (from to message : string) (isWhitelisted : bool)
    (now : Z) : t :=
  let fee := if isWhitelisted then 0%float else config.nonWhitelistedFee in
  new "MESSAGE" (Some from) (Some to) 0%float fee
    [("message", Json.String message); ("isWhitelisted", Json.Bool isWhitelisted)]
    now.

(** [Transaction.createValidatorRegister(from, amount, fee)] *)
Definition createValidatorRegister (from : string) (amount fee : float) (now : Z) : t :=
  new "VALIDATOR_REGISTER" (Some from) None amount fee [] now.

(** [Transaction.createValidatorWithdraw(from, fee)] *)
Definition createValidatorWithdraw (from : string) (fee : float) (now : Z) : t :=
  new "VALIDATOR_WITHDRAW" (Some from) (Some from) 0%float fee [] now.

(** [Transaction.createWhitelist(from, to, action)] *)
Definition createWhitelist (from to action : string) (now : Z) : t :=
  new "WHITELIST" (Some from) (Some to) 0%float 0%float [("action", Json.String action)] now.

(** [tx.verifySignature(verifyCallback)]: [!this.signature] and
    [!this.from] hold for [null] and for the empty string. *)
Definition verifySignature (verifyCallback : string → string → string → bool)
    (tx : t) : bool :=
  match signature tx, from tx with
  | Some sig, Some sender =>
      if bool_decide (sig = "") || bool_decide (sender = "") then false
      else verifyCallback (hash tx) sig sender
  | _, _ => false
  end.

(** [tx.toJSON()]: a plain object with the eleven properties of [tx].  A
    plain object of this shape is given by the values of its properties,
    that is by a record of type [t]. *)
Definition toJSON (tx : t) : t := tx.

(** [Transaction.fromJSON(json)], with [json] the parsed object and [now]
    the value of [Date.now()] in the constructor.  The constructor runs
    first and stores its own timestamp and hash; [timestamp], [hash],
    [signature] and the two rewards are then assigned from [json], the
    rewards through [|| 0]. *)
Definition fromJSON (json : t) (now : Z) : t :=
  let tx := new (type json) (from json) (to json) (amount json) (fee json)
              (data json) now in
  {| type := type tx; from := from tx; to := to tx; amount := amount tx;
     fee := fee tx; data := data tx;
     timestamp := timestamp json;
     hash := hash json;
     signature := signature json;
     senderReward :=
       Num.or_zero (senderReward json);
     receiverReward :=
       Num.or_zero (receiverReward json) |}.

End Hashing.

End Transaction.

(** ** Exceptions and the state-and-exception monad *)

Inductive Error :=
| InvalidTransactionHash          (* 'Invalid transaction hash' *)
| NotAValidator                   (* 'Not a validator' / 'Address ... is not a validator' *)
| ToJSONIsNotAFunction            (* TypeError: transaction.toJSON is not a function *)
| MaximumCallStackSizeExceeded    (* RangeError: Maximum call stack size exceeded *)
| FailedToGetLatestBlock          (* 'Failed to get latest block: ...' *)
| FailedToSaveBlock (cause : Error)   (* 'Failed to save block: ' + err.message *)
| BelowMinimumDeposit             (* 'Staked amount ... is below minimum deposit ...' *)
| RequestFailed                   (* protocol.request rejected (timeout, stream error) *)
| InvalidAddressFormat            (* 'Invalid address format' *)
| AddressNotInWallet              (* 'Address not found in wallet' *)
| MessageRateLimitExceeded        (* 'Message rate limit exceeded: ...' *)
| MessageRateLimitToAddressExceeded. (* 'Message rate limit to ... exceeded: ...' *)

Inductive outcome (S A : Type) :=
| Return (a : A) (s : S)
| Throw (e : Error) (s : S).
Arguments Return {S A} a s.
Arguments Throw {S A} e s.

Definition M (S A : Type) : Type := S → outcome S A.

Definition ret {S A} (a : A) : M S A := λ s, Return a s.
Definition throw {S A} (e : Error) : M S A := λ s, Throw e s.
Definition bind {S A B} (m : M S A) (k : A → M S B) : M S B :=
  λ s, match m s with
       | Return a s' => k a s'
       | Throw e s' => Throw e s'
       end.
Definition get_state {S} : M S S := λ s, Return s s.
Definition modify {S} (f : S → S) : M S unit := λ s, Return tt (f s).
(** [try { m } catch (err) { h err }] *)
Definition try_catch {S A} (m : M S A) (h : Error → M S A) : M S A :=
  λ s, match m s with
       | Return a s' => Return a s'
       | Throw e s' => h e s'
       end.

Global Instance M_ret {S} : MRet (M S) := λ A a, ret a.
Global Instance M_bind {S} : MBind (M S) := λ A B k m, bind m k.

(** [for (const x of xs) { await body(x) }] *)
Fixpoint for_of {S A} (xs : list A) (body : A → M S unit) : M S unit :=
  match xs with
  | [] => ret tt
  | x :: rest => body x;; for_of rest body
  end.

(** The state an outcome ends in. *)
Definition final {S A} (o : outcome S A) : S :=
  match o with
  | Return _ s => s
  | Throw _ s => s
  end.

Definition returned {S A} (o : outcome S A) : bool :=
  match o with
  | Return _ _ => true
  | Throw _ _ => false
  end.

(** ** ES6 [Map], in insertion order *)

Module JsMap.
Section JsMap.
Context {K V : Type} `{EqDecision K}.

Definition t := list (K * V).

Fixpoint get (m : list (K * V)) (k : K) : option V :=
  match m with
  | [] => None
  | (k', v) :: rest => if decide (k' = k) then Some v else get rest k
  end.

Definition has (m : list (K * V)) (k : K) : bool :=
  match get m k with Some _ => true | None => false end.

(** [m.set(k, v)]: an existing key keeps its position. *)
Fixpoint set (m : list (K * V)) (k : K) (v : V) : list (K * V) :=
  match m with
  | [] => [(k, v)]
  | (k', v') :: rest =>
      if decide (k' = k) then (k', v) :: rest else (k', v') :: set rest k v
  end.

Fixpoint delete (m : list (K * V)) (k : K) : list (K * V) :=
  match m with
  | [] => []
  | (k', v') :: rest =>
      if decide (k' = k) then rest else (k', v') :: delete rest k
  end.

Definition size (m : list (K * V)) : nat := length m.
Definition keys (m : list (K * V)) : list K := map fst m.

End JsMap.
End JsMap.

(** ** [block.js] *)

(** An element of [block.transactions]: a [Transaction] instance (it has
    the methods [toJSON], [verifyHash], ...) or a plain object produced by
    [JSON.parse], which has the same properties but no methods. *)
Inductive TxObject :=
| Instance (tx : Transaction.t)
| Plain (tx : Transaction.t).

Definition fields (o : TxObject) : Transaction.t :=
  match o with
  | Instance tx => tx
  | Plain tx => tx
  end.

Module Block.

Record t := mk {
  height : Z;
  previousHash : string;
  transactions : list TxObject;
  validator : string;
  timestamp : Z;
  hash : string;
  signature : option string
}.

Section Hashing.
Context `{Runtime}.

Definition signature_json (s : option string) : Json.value :=
  match s with
  | Some x => Json.String x
  | None => Json.Null
  end.

(** What [JSON.stringify] sees of a transaction inside a block: the result
    of [toJSON()] for an instance, the own properties for a plain object;
    both list the same eleven properties. *)
Definition transaction_json (o : TxObject) : Json.value :=
  let tx := fields o in
  Json.Object
    [ ("type", Json.String (Transaction.type tx));
      ("from", Transaction.address_json (Transaction.from tx));
      ("to", Transaction.address_json (Transaction.to tx));
      ("amount", Json.Number (Transaction.amount tx));
      ("fee", Json.Number (Transaction.fee tx));
      ("data", Json.Object (Transaction.data tx));
      ("timestamp", Json.Number (Num.of_Z (Transaction.timestamp tx)));
      ("hash", Json.String (Transaction.hash tx));
      ("signature", signature_json (Transaction.signature tx));
      ("senderReward", Json.Number (Transaction.senderReward tx));
      ("receiverReward", Json.Number (Transaction.receiverReward tx)) ].

Definition calculateHash (height : Z) (previousHash : string)
    (transactions : list TxObject) (validator : string) (timestamp : Z) : string :=
  sha256_hex
    (Json.stringify_object
       [ ("height", Json.Number (Num.of_Z height));
         ("previousHash", Json.String previousHash);
         ("timestamp", Json.Number (Num.of_Z timestamp));
         ("transactions", Json.Array (map transaction_json transactions));
         ("validator", Json.String validator) ]).

(** [new Block(height, previousHash, transactions, validator, timestamp)] *)
Definition new (height : Z) (previousHash : string)
    (transactions : list TxObject) (validator : string) (timestamp : Z) : t :=
  {| height := height;
     previousHash := previousHash;
     transactions := transactions;
     validator := validator;
     timestamp := timestamp;
     hash := calculateHash height previousHash transactions validator timestamp;
     signature := None |}.

End Hashing.

(** [block.toJSON()].  The method computes its [size] property as
    [JSON.stringify(this).length], and [JSON.stringify] calls the [toJSON]
    method of the object it is given: the call enters [toJSON] again, and so
    on until the engine throws a RangeError.  No call of [toJSON] on a
    [Block] returns.  ([createGenesisBlock] writes the genesis block as an
    object literal, "to avoid recursive calls".) *)
Definition toJSON {S : Type} (b : t) : M S Json.value :=
  throw MaximumCallStackSizeExceeded.

(** [await block.sign(signCallback)] *)
Definition sign (signCallback : string → string) (b : t) : t :=
  {| height := height b; previousHash := previousHash b;
     transactions := transactions b; validator := validator b;
     timestamp := timestamp b; hash := hash b;
     signature := Some (signCallback (hash b)) |}.

(** [Block.fromJSON(data)]: [data] is what [JSON.parse] returned, so the
    transactions of the result are plain objects; [hash] and [signature]
    are taken from [data] as they are. *)
Definition fromJSON (data : t) : t :=
  {| height := height data; previousHash := previousHash data;
     transactions := map (λ o, Plain (fields o)) (transactions data);
     validator := validator data; timestamp := timestamp data;
     hash := hash data; signature := signature data |}.

End Block.

(** ** The LevelDB store, one finite map per key prefix *)

Module Db.

(** An element of the array under [INBOX_<address>]. *)
Record inbox_entry := {
  in_id : string;
  in_from : option string;
  in_content : option Json.value;
  in_timestamp : Z;
  in_read : bool;
  in_reward : float
}.

(** An element of the array under [OUTBOX_<address>]. *)
Record outbox_entry := {
  out_id : string;
  out_to : option string;
  out_content : option Json.value;
  out_timestamp : Z;
  out_reward : float;
  out_fee : float
}.

Record t := mk {
  balance : gmap string float                   (* BALANCE_<address> *);
  block : gmap string Block.t                (* BLOCK_<hash> *);
  block_height : gmap Z string               (* BLOCK_HEIGHT_<height> *);
  block_hash : gmap string string            (* BLOCK_HASH_<hash> *);
  latest_block : option Block.t              (* LATEST_BLOCK *);
  tx : gmap string Transaction.t             (* TX_<hash> *);
  whitelist : gmap string (list (option string)) (* WHITELIST_<address> *);
  inbox : gmap string (list inbox_entry)     (* INBOX_<address> *);
  outbox : gmap string (list outbox_entry)   (* OUTBOX_<address> *);
  address_txs : gmap string (list string)    (* ADDRESS_TXS_<address> *);
  validators : option (list (string * float))   (* VALIDATORS *);
  validator_last_update : option Z           (* VALIDATOR_LAST_UPDATE *);
  validator_min_deposit : option float          (* VALIDATOR_MIN_DEPOSIT *);
  pubkey : gmap string string                (* PUBKEY_<address> *)
}.

Definition empty : t :=
  {| balance := ∅;
     block := ∅;
     block_height := ∅;
     block_hash := ∅;
     latest_block := None;
     tx := ∅;
     whitelist := ∅;
     inbox := ∅;
     outbox := ∅;
     address_txs := ∅;
     validators := None;
     validator_last_update := None;
     validator_min_deposit := None;
     pubkey := ∅ |}.

Definition with_balance (f : gmap string float → gmap string float) (d : t) : t :=
  {| balance := f (balance d);
     block := block d;
     block_height := block_height d;
     block_hash := block_hash d;
     latest_block := latest_block d;
     tx := tx d;
     whitelist := whitelist d;
     inbox := inbox d;
     outbox := outbox d;
     address_txs := address_txs d;
     validators := validators d;
     validator_last_update := validator_last_update d;
     validator_min_deposit := validator_min_deposit d;
     pubkey := pubkey d |}.

Definition with_block (f : gmap string Block.t → gmap string Block.t) (d : t) : t :=
  {| balance := balance d;
     block := f (block d);
     block_height := block_height d;
     block_hash := block_hash d;
     latest_block := latest_block d;
     tx := tx d;
     whitelist := whitelist d;
     inbox := inbox d;
     outbox := outbox d;
     address_txs := address_txs d;
     validators := validators d;
     validator_last_update := validator_last_update d;
     validator_min_deposit := validator_min_deposit d;
     pubkey := pubkey d |}.

Definition with_block_height (f : gmap Z string → gmap Z string) (d : t) : t :=
  {| balance := balance d;
     block := block d;
     block_height := f (block_height d);
     block_hash := block_hash d;
     latest_block := latest_block d;
     tx := tx d;
     whitelist := whitelist d;
     inbox := inbox d;
     outbox := outbox d;
     address_txs := address_txs d;
     validators := validators d;
     validator_last_update := validator_last_update d;
     validator_min_deposit := validator_min_deposit d;
     pubkey := pubkey d |}.

Definition with_block_hash (f : gmap string string → gmap string string) (d : t) : t :=
  {| balance := balance d;
     block := block d;
     block_height := block_height d;
     block_hash := f (block_hash d);
     latest_block := latest_block d;
     tx := tx d;
     whitelist := whitelist d;
     inbox := inbox d;
     outbox := outbox d;
     address_txs := address_txs d;
     validators := validators d;
     validator_last_update := validator_last_update d;
     validator_min_deposit := validator_min_deposit d;
     pubkey := pubkey d |}.

Definition with_latest_block (f : option Block.t → option Block.t) (d : t) : t :=
  {| balance := balance d;
     block := block d;
     block_height := block_height d;
     block_hash := block_hash d;
     latest_block := f (latest_block d);
     tx := tx d;
     whitelist := whitelist d;
     inbox := inbox d;
     outbox := outbox d;
     address_txs := address_txs d;
     validators := validators d;
     validator_last_update := validator_last_update d;
     validator_min_deposit := validator_min_deposit d;
     pubkey := pubkey d |}.

Definition with_tx (f : gmap string Transaction.t → gmap string Transaction.t) (d : t) : t :=
  {| balance := balance d;
     block := block d;
     block_height := block_height d;
     block_hash := block_hash d;
     latest_block := latest_block d;
     tx := f (tx d);
     whitelist := whitelist d;
     inbox := inbox d;
     outbox := outbox d;
     address_txs := address_txs d;
     validators := validators d;
     validator_last_update := validator_last_update d;
     validator_min_deposit := validator_min_deposit d;
     pubkey := pubkey d |}.

Definition with_whitelist (f : gmap string (list (option string)) → gmap string (list (option string))) (d : t) : t :=
  {| balance := balance d;
     block := block d;
     block_height := block_height d;
     block_hash := block_hash d;
     latest_block := latest_block d;
     tx := tx d;
     whitelist := f (whitelist d);
     inbox := inbox d;
     outbox := outbox d;
     address_txs := address_txs d;
     validators := validators d;
     validator_last_update := validator_last_update d;
     validator_min_deposit := validator_min_deposit d;
     pubkey := pubkey d |}.

Definition with_inbox (f : gmap string (list inbox_entry) → gmap string (list inbox_entry)) (d : t) : t :=
  {| balance := balance d;
     block := block d;
     block_height := block_height d;
     block_hash := block_hash d;
     latest_block := latest_block d;
     tx := tx d;
     whitelist := whitelist d;
     inbox := f (inbox d);
     outbox := outbox d;
     address_txs := address_txs d;
     validators := validators d;
     validator_last_update := validator_last_update d;
     validator_min_deposit := validator_min_deposit d;
     pubkey := pubkey d |}.

Definition with_outbox (f : gmap string (list outbox_entry) → gmap string (list outbox_entry)) (d : t) : t :=
  {| balance := balance d;
     block := block d;
     block_height := block_height d;
     block_hash := block_hash d;
     latest_block := latest_block d;
     tx := tx d;
     whitelist := whitelist d;
     inbox := inbox d;
     outbox := f (outbox d);
     address_txs := address_txs d;
     validators := validators d;
     validator_last_update := validator_last_update d;
     validator_min_deposit := validator_min_deposit d;
     pubkey := pubkey d |}.

Definition with_address_txs (f : gmap string (list string) → gmap string (list string)) (d : t) : t :=
  {| balance := balance d;
     block := block d;
     block_height := block_height d;
     block_hash := block_hash d;
     latest_block := latest_block d;
     tx := tx d;
     whitelist := whitelist d;
     inbox := inbox d;
     outbox := outbox d;
     address_txs := f (address_txs d);
     validators := validators d;
     validator_last_update := validator_last_update d;
     validator_min_deposit := validator_min_deposit d;
     pubkey := pubkey d |}.

Definition with_validators (f : option (list (string * float)) → option (list (string * float))) (d : t) : t :=
  {| balance := balance d;
     block := block d;
     block_height := block_height d;
     block_hash := block_hash d;
     latest_block := latest_block d;
     tx := tx d;
     whitelist := whitelist d;
     inbox := inbox d;
     outbox := outbox d;
     address_txs := address_txs d;
     validators := f (validators d);
     validator_last_update := validator_last_update d;
     validator_min_deposit := validator_min_deposit d;
     pubkey := pubkey d |}.

Definition with_validator_last_update (f : option Z → option Z) (d : t) : t :=
  {| balance := balance d;
     block := block d;
     block_height := block_height d;
     block_hash := block_hash d;
     latest_block := latest_block d;
     tx := tx d;
     whitelist := whitelist d;
     inbox := inbox d;
     outbox := outbox d;
     address_txs := address_txs d;
     validators := validators d;
     validator_last_update := f (validator_last_update d);
     validator_min_deposit := validator_min_deposit d;
     pubkey := pubkey d |}.

Definition with_validator_min_deposit (f : option float → option float) (d : t) : t :=
  {| balance := balance d;
     block := block d;
     block_height := block_height d;
     block_hash := block_hash d;
     latest_block := latest_block d;
     tx := tx d;
     whitelist := whitelist d;
     inbox := inbox d;
     outbox := outbox d;
     address_txs := address_txs d;
     validators := validators d;
     validator_last_update := validator_last_update d;
     validator_min_deposit := f (validator_min_deposit d);
     pubkey := pubkey d |}.

Definition with_pubkey (f : gmap string string → gmap string string) (d : t) : t :=
  {| balance := balance d;
     block := block d;
     block_height := block_height d;
     block_hash := block_hash d;
     latest_block := latest_block d;
     tx := tx d;
     whitelist := whitelist d;
     inbox := inbox d;
     outbox := outbox d;
     address_txs := address_txs d;
     validators := validators d;
     validator_last_update := validator_last_update d;
     validator_min_deposit := validator_min_deposit d;
     pubkey := f (pubkey d) |}.

End Db.

(** ** [blockchain.js] *)

Module Blockchain.

Record t := mk {
  db : Db.t;
  validators : list (option string * float);   (* Map: validator address -> staked amount *)
  validatorMinDeposit : float;
  currentHeight : Z;
  pendingTransactions : list Transaction.t
}.

(** [new Blockchain(db)] *)
Definition new (d : Db.t) : t :=
  {| db := d; validators := []; validatorMinDeposit := config.validatorMinDeposit;
     currentHeight := 0; pendingTransactions := [] |}.

Definition with_db (f : Db.t → Db.t) (st : t) : t :=
  {| db := f (db st); validators := validators st;
     validatorMinDeposit := validatorMinDeposit st;
     currentHeight := currentHeight st;
     pendingTransactions := pendingTransactions st |}.

Definition with_validators (f : list (option string * float) → list (option string * float))
    (st : t) : t :=
  {| db := db st; validators := f (validators st);
     validatorMinDeposit := validatorMinDeposit st;
     currentHeight := currentHeight st;
     pendingTransactions := pendingTransactions st |}.

Definition with_currentHeight (f : Z → Z) (st : t) : t :=
  {| db := db st; validators := validators st;
     validatorMinDeposit := validatorMinDeposit st;
     currentHeight := f (currentHeight st);
     pendingTransactions := pendingTransactions st |}.

Definition with_pendingTransactions (f : list Transaction.t → list Transaction.t)
    (st : t) : t :=
  {| db := db st; validators := validators st;
     validatorMinDeposit := validatorMinDeposit st;
     currentHeight := currentHeight st;
     pendingTransactions := f (pendingTransactions st) |}.

(** The text of an address inside a template literal: [`${address}`]. *)
Definition address_text (a : option string) : string := default "null" a.

(** [if (address)]: neither [null] nor the empty string. *)
Definition address_truthy (a : option string) : bool :=
  match a with
  | Some s => negb (String.eqb s "")
  | None => false
  end.

(** [getAddressBalance(address)]: [parseFloat] of what the store gives
    for the number last written under the key, [0] when the key is not
    found. *)
Definition getAddressBalance (st : t) (address : option string) : float :=
  match Db.balance (db st) !! address_text address with
  | Some balance => Num.stored balance
  | None => 0%float
  end.

Definition read_balance (address : option string) : M t float :=
  λ st, Return (getAddressBalance st address) st.

(** [db.put(`BALANCE_${address}`, value)] *)
Definition put_balance (address : option string) (value : float) : M t unit :=
  modify (with_db (Db.with_balance (insert (address_text address) value))).

(** [getLatestBlock()] *)
Definition getLatestBlock : M t Block.t :=
  λ st, match Db.latest_block (db st) with
        | Some b => Return (Block.fromJSON b) st
        | None => Throw FailedToGetLatestBlock st
        end.

(** [saveValidators()]: the entries are copied into an object, whose
    property names are strings, and stored under [VALIDATORS]. *)
Definition validatorsObj (entries : list (option string * float)) : list (string * float) :=
  fold_left (λ obj e, JsMap.set obj (address_text e.1) e.2) entries [].

Definition saveValidators : M t unit :=
  λ st, Return tt
          (with_db (Db.with_validators (λ _, Some (validatorsObj (validators st)))) st).

(** [addToAddressTransactions(address, txHash)] *)
Definition addToAddressTransactions (address : option string) (txHash : string)
    : M t unit :=
  modify (with_db (Db.with_address_txs (λ m,
    <[address_text address := default [] (m !! address_text address) ++ [txHash]]> m))).

Section WithRuntime.
Context `{Runtime}.

(** [addTransaction(transaction)] *)
Definition addTransaction (transaction : Transaction.t) : M t string :=
  if negb (Transaction.verifyHash transaction) then throw InvalidTransactionHash
  else
    modify (with_pendingTransactions (λ p, p ++ [transaction]));;
    mret (Transaction.hash transaction).

(** [isTransactionValid(transaction)] *)
Definition isTransactionValid (st : t) (transaction : Transaction.t) : bool :=
  let type := Transaction.type transaction in
  let amount := Transaction.amount transaction in
  let fee := Transaction.fee transaction in
  if negb (Transaction.verifyHash transaction) then false
  else if bool_decide (type ∈ ["MINT"; "REWARD"]) then true
  else if bool_decide (type = "TRANSFER") then
    let senderBalance := getAddressBalance st (Transaction.from transaction) in
    (amount + fee <=? senderBalance)%float
  else if bool_decide (type = "VALIDATOR_REGISTER") then
    let senderBalance := getAddressBalance st (Transaction.from transaction) in
    (amount + fee <=? senderBalance)%float
    && (validatorMinDeposit st <=? amount)%float
  else if bool_decide (type = "VALIDATOR_WITHDRAW") then
    JsMap.has (validators st) (Transaction.from transaction)
  else if bool_decide (type = "MESSAGE") then
    if (0 <? fee)%float then
      let senderBalance := getAddressBalance st (Transaction.from transaction) in
      (fee <=? senderBalance)%float
    else true
  else if bool_decide (type = "WHITELIST") then true
  else false.

End WithRuntime.

(** [processTransferTransaction]: both balances are read before either is
    written. *)
Definition processTransferTransaction (transaction : Transaction.t) : M t unit :=
  senderBalance ← read_balance (Transaction.from transaction);
  recipientBalance ← read_balance (Transaction.to transaction);
  put_balance (Transaction.from transaction)
    (senderBalance - Transaction.amount transaction - Transaction.fee transaction)%float;;
  put_balance (Transaction.to transaction)
    (recipientBalance + Transaction.amount transaction)%float.

Definition processMintTransaction (transaction : Transaction.t) : M t unit :=
  recipientBalance ← read_balance (Transaction.to transaction);
  put_balance (Transaction.to transaction)
    (recipientBalance + Transaction.amount transaction)%float.

Definition processRewardTransaction (transaction : Transaction.t) : M t unit :=
  recipientBalance ← read_balance (Transaction.to transaction);
  put_balance (Transaction.to transaction)
    (recipientBalance + Transaction.amount transaction)%float.

Definition processValidatorRegistration (transaction : Transaction.t) : M t unit :=
  senderBalance ← read_balance (Transaction.from transaction);
  put_balance (Transaction.from transaction)
    (senderBalance - Transaction.amount transaction - Transaction.fee transaction)%float;;
  modify (with_validators (λ v,
    let currentStake :=
      Num.or_zero (default 0%float (JsMap.get v (Transaction.from transaction))) in
    JsMap.set v (Transaction.from transaction)
      (currentStake + Transaction.amount transaction)%float));;
  saveValidators.

Definition processValidatorWithdrawal (transaction : Transaction.t) : M t unit :=
  st ← get_state;
  match JsMap.get (validators st) (Transaction.from transaction) with
  | None => throw NotAValidator
  | Some stakedAmount =>
      senderBalance ← read_balance (Transaction.from transaction);
      put_balance (Transaction.from transaction)
        (senderBalance + stakedAmount - Transaction.fee transaction)%float;;
      modify (with_validators (λ v, JsMap.delete v (Transaction.from transaction)));;
      saveValidators
  end.

(** [storeMessage(transaction)] *)
Definition storeMessage (transaction : Transaction.t) : M t unit :=
  let content := Json.prop (Transaction.data transaction) "message" in
  let inboxKey := address_text (Transaction.to transaction) in
  let outboxKey := address_text (Transaction.from transaction) in
  modify (with_db (Db.with_inbox (λ m,
    <[inboxKey := default [] (m !! inboxKey) ++
        [ {| Db.in_id := Transaction.hash transaction;
             Db.in_from := Transaction.from transaction;
             Db.in_content := content;
             Db.in_timestamp := Transaction.timestamp transaction;
             Db.in_read := false;
             Db.in_reward := Transaction.receiverReward transaction |} ]]> m)));;
  modify (with_db (Db.with_outbox (λ m,
    <[outboxKey := default [] (m !! outboxKey) ++
        [ {| Db.out_id := Transaction.hash transaction;
             Db.out_to := Transaction.to transaction;
             Db.out_content := content;
             Db.out_timestamp := Transaction.timestamp transaction;
             Db.out_reward := Transaction.senderReward transaction;
             Db.out_fee := Transaction.fee transaction |} ]]> m))).

Definition processMessageTransaction (transaction : Transaction.t) : M t unit :=
  (if (0 <? Transaction.fee transaction)%float then
     senderBalance ← read_balance (Transaction.from transaction);
     put_balance (Transaction.from transaction)
       (senderBalance - Transaction.fee transaction)%float
   else if (0 <? Transaction.senderReward transaction)%float then
     senderBalance ← read_balance (Transaction.from transaction);
     put_balance (Transaction.from transaction)
       (senderBalance + Transaction.senderReward transaction)%float
   else mret tt);;
  (if (0 <? Transaction.receiverReward transaction)%float then
     receiverBalance ← read_balance (Transaction.to transaction);
     put_balance (Transaction.to transaction)
       (receiverBalance + Transaction.receiverReward transaction)%float
   else mret tt);;
  storeMessage transaction.

Definition processWhitelistTransaction (transaction : Transaction.t) : M t unit :=
  let whitelistKey := address_text (Transaction.from transaction) in
  let action := Json.prop (Transaction.data transaction) "action" in
  modify (with_db (Db.with_whitelist (λ m,
    let whitelist := default [] (m !! whitelistKey) in
    let updated :=
      if Json.is_string action "add" then
        if bool_decide (Transaction.to transaction ∈ whitelist) then whitelist
        else whitelist ++ [Transaction.to transaction]
      else if Json.is_string action "remove" then
        filter (λ addr, addr ≠ Transaction.to transaction) whitelist
      else whitelist in
    <[whitelistKey := updated]> m))).

(** [processTransaction(transaction)].  The first statement calls
    [transaction.toJSON()], which a plain object does not have. *)
Definition processTransaction (o : TxObject) : M t unit :=
  match o with
  | Plain _ => throw ToJSONIsNotAFunction
  | Instance transaction =>
      let type := Transaction.type transaction in
      modify (with_db (Db.with_tx (insert (Transaction.hash transaction) transaction)));;
      (if bool_decide (type = "TRANSFER") then processTransferTransaction transaction
       else if bool_decide (type = "MINT") then processMintTransaction transaction
       else if bool_decide (type = "REWARD") then processRewardTransaction transaction
       else if bool_decide (type = "VALIDATOR_REGISTER") then
         processValidatorRegistration transaction
       else if bool_decide (type = "VALIDATOR_WITHDRAW") then
         processValidatorWithdrawal transaction
       else if bool_decide (type = "MESSAGE") then processMessageTransaction transaction
       else if bool_decide (type = "WHITELIST") then processWhitelistTransaction transaction
       else mret tt);;
      (if address_truthy (Transaction.from transaction) then
         addToAddressTransactions (Transaction.from transaction)
           (Transaction.hash transaction)
       else mret tt);;
      (if address_truthy (Transaction.to transaction)
          && negb (bool_decide (Transaction.to transaction = Transaction.from transaction))
       then addToAddressTransactions (Transaction.to transaction)
              (Transaction.hash transaction)
       else mret tt)
  end.

(** The loop body of the genesis branch of [saveBlock]:
    [if (tx.type === 'MINT' && tx.to) db.put(`BALANCE_${tx.to}`, tx.amount || 0)]. *)
Definition genesisCredit (o : TxObject) : M t unit :=
  let tx := fields o in
  if bool_decide (Transaction.type tx = "MINT") && address_truthy (Transaction.to tx)
  then put_balance (Transaction.to tx) (Num.or_zero (Transaction.amount tx))
  else mret tt.

(** The transaction loop of [saveBlock]:
    [for (const tx of block.transactions) await this.processTransaction(tx)]
    above height 0, the direct balance writes of the genesis branch at
    height 0. *)
Definition processTransactions (block : Block.t) : M t unit :=
  if bool_decide (0 < Block.height block)%Z
  then for_of (Block.transactions block) processTransaction
  else for_of (Block.transactions block) genesisCredit.

(** [saveBlock(block)].  The first statement evaluates [block.toJSON()]. *)
Definition saveBlock (block : Block.t) : M t unit :=
  try_catch
    (_ ← Block.toJSON block;
     modify (with_db (Db.with_block (insert (Block.hash block) block)));;
     modify (with_db (Db.with_block_height (insert (Block.height block) (Block.hash block))));;
     modify (with_db (Db.with_block_hash (insert (Block.hash block) (Block.hash block))));;
     _ ← Block.toJSON block;
     modify (with_db (Db.with_latest_block (λ _, Some block)));;
     processTransactions block;;
     modify (with_currentHeight (λ _, Block.height block)))
    (λ err, throw (FailedToSaveBlock err)).

(** One turn of the [totalReward] loop of [processValidatorRewards]: the
    running total is rounded after every addition. *)
Definition rewardStep (totalReward : float) (o : TxObject) : float :=
  let tx := fields o in
  let r1 := (totalReward + Transaction.fee tx)%float in
  if bool_decide (Transaction.type tx = "MESSAGE") then
    let r2 := if Num.truthy (Transaction.senderReward tx)
              then (r1 + Transaction.senderReward tx * 1.5)%float
              else r1 in
    if Num.truthy (Transaction.receiverReward tx)
    then (r2 + Transaction.receiverReward tx * 1.5)%float
    else r2
  else r1.

Definition totalReward (block : Block.t) : float :=
  fold_left rewardStep (Block.transactions block) 0%float.

Section WithRuntime.
Context `{Runtime}.

(** [processValidatorRewards(validatorAddress, block)], with [now] the
    value [Date.now()] has inside the [Transaction] constructor. *)
Definition processValidatorRewards (validatorAddress : string) (block : Block.t)
    (now : Z) : M t unit :=
  let total := totalReward block in
  let rewardTx :=
    Transaction.rehash
      (Transaction.new "REWARD" None (Some validatorAddress) total 0%float
         [("blockHeight", Json.Number (Num.of_Z (Block.height block)))] now) in
  modify (with_db (Db.with_tx (insert (Transaction.hash rewardTx) rewardTx)));;
  balance ← read_balance (Some validatorAddress);
  put_balance (Some validatorAddress) (balance + total)%float.

(** [createBlock(validatorAddress, signCallback)]; [now_block] and
    [now_reward] are the two readings of [Date.now()], in the [Block]
    constructor and in the constructor of the reward transaction.
    [pendingTransactions.filter(tx => !validTransactions.includes(tx))]
    drops the objects that were copied into [validTransactions], that is
    the pending entries that passed [isTransactionValid]. *)
Definition createBlock (validatorAddress : string) (signCallback : string → string)
    (now_block now_reward : Z) : M t unit :=
  st ← get_state;
  if negb (JsMap.has (validators st) (Some validatorAddress)) then mret tt
  else
    latestBlock ← getLatestBlock;
    if bool_decide (pendingTransactions st = []) then mret tt
    else
      let validTransactions := filter (λ tx, isTransactionValid st tx = true)
                                 (pendingTransactions st) in
      if bool_decide (validTransactions = []) then mret tt
      else
        let newBlock :=
          Block.sign signCallback
            (Block.new (Block.height latestBlock + 1) (Block.hash latestBlock)
               (map Instance validTransactions) validatorAddress now_block) in
        saveBlock newBlock;;
        modify (with_pendingTransactions
                  (filter (λ tx, isTransactionValid st tx ≠ true)));;
        processValidatorRewards validatorAddress newBlock now_reward.

End WithRuntime.

Definition with_validatorMinDeposit (f : float → float) (st : t) : t :=
  {| db := db st; validators := validators st;
     validatorMinDeposit := f (validatorMinDeposit st);
     currentHeight := currentHeight st;
     pendingTransactions := pendingTransactions st |}.

(** [getAddressTransactions(address)]: the stored array, [[]] when the key
    is not found. *)
Definition getAddressTransactions (st : t) (address : option string) : list string :=
  default [] (Db.address_txs (db st) !! address_text address).

(** [getWhitelist(address)]: the stored array, [[]] when the key is not
    found. *)
Definition getWhitelist (st : t) (address : option string) : list (option string) :=
  default [] (Db.whitelist (db st) !! address_text address).

(** [isWhitelisted(owner, target)] *)
Definition isWhitelisted (st : t) (owner target : option string) : bool :=
  bool_decide (target ∈ getWhitelist st owner).

(** [getMessages(address, onlyUnread, fromAddress)]: [[]] when the inbox
    key is not found. *)
Definition getMessages (st : t) (address : option string) (onlyUnread : bool)
    (fromAddress : option string) : list Db.inbox_entry :=
  let messages := default [] (Db.inbox (db st) !! address_text address) in
  let messages :=
    if onlyUnread then filter (λ msg, Db.in_read msg = false) messages
    else messages in
  if address_truthy fromAddress
  then filter (λ msg, Db.in_from msg = fromAddress) messages
  else messages.

(** [{ ...msg, read: true }] *)
Definition markRead (msg : Db.inbox_entry) : Db.inbox_entry :=
  {| Db.in_id := Db.in_id msg; Db.in_from := Db.in_from msg;
     Db.in_content := Db.in_content msg; Db.in_timestamp := Db.in_timestamp msg;
     Db.in_read := true; Db.in_reward := Db.in_reward msg |}.

(** [markMessageAsRead(address, messageId)].  [None] is the exception
    'Failed to mark message as read: ...', thrown when the inbox key is not
    found; nothing has been written at that point. *)
Definition markMessageAsRead (address : option string) (messageId : string)
    (st : t) : option t :=
  let inboxKey := address_text address in
  match Db.inbox (db st) !! inboxKey with
  | None => None
  | Some messages =>
      let updatedMessages :=
        map (λ msg, if bool_decide (Db.in_id msg = messageId) then markRead msg else msg)
          messages in
      Some (with_db (Db.with_inbox (insert inboxKey updatedMessages)) st)
  end.

(** [updateValidatorMinDeposit()].  The loop runs over the live iterator
    of the [validators] map and deletes only the entry it is visiting, so
    it visits the entries the map had when the loop began, each once. *)
Definition updateValidatorMinDeposit : M t unit :=
  modify (with_validatorMinDeposit (λ m, m * 1.1)%float);;
  st ← get_state;
  for_of (validators st) (λ e,
    st ← get_state;
    if (e.2 <? validatorMinDeposit st)%float then
      validatorBalance ← read_balance e.1;
      put_balance e.1 (validatorBalance + e.2)%float;;
      modify (with_validators (λ v, JsMap.delete v e.1))
    else mret tt);;
  saveValidators.

Section WithRuntime.
Context `{Runtime}.

(** [getTransaction(hash)], with [now] the value of [Date.now()] in the
    constructor that [Transaction.fromJSON] calls.  [None] is the exception
    'Transaction not found: ...'. *)
Definition getTransaction (st : t) (hash : string) (now : Z) : option Transaction.t :=
  (λ txData, Transaction.fromJSON txData now) <$> Db.tx (db st) !! hash.

(** The transaction built in one turn of the loop of
    [calculateMonthlyValidatorRewards]. *)
Definition monthlyRewardTx (address : option string) (stakedAmount : float) (now : Z)
    : Transaction.t :=
  let monthlyRate := (config.validatorAPY / 12)%float in
  let reward := (stakedAmount * monthlyRate)%float in
  Transaction.rehash
    (Transaction.new "REWARD" None address reward 0%float
       [("type", Json.String "VALIDATOR_MONTHLY_REWARD")] now).

(** [calculateMonthlyValidatorRewards()], with [clock i] the value of
    [Date.now()] in turn [i] of the loop. *)
Definition calculateMonthlyValidatorRewards (clock : nat → Z) : M t unit :=
  st ← get_state;
  for_of (imap (λ i e, (i, e)) (validators st)) (λ ie,
    let rewardTx := monthlyRewardTx ie.2.1 ie.2.2 (clock ie.1) in
    _ ← addTransaction rewardTx;
    mret tt).

End WithRuntime.

End Blockchain.

(** ** [validator.js] *)

Module ValidatorManager.

Record t := mk {
  validators : list (string * float);     (* Map: address -> staked amount *)
  minimumDeposit : float;
  lastYearlyUpdate : Z
}.

Definition with_validators (f : list (string * float) → list (string * float)) (vm : t) : t :=
  {| validators := f (validators vm);
     minimumDeposit := minimumDeposit vm;
     lastYearlyUpdate := lastYearlyUpdate vm |}.

(** [registerValidator(address, amount)] *)
Definition registerValidator (address : string) (amount : float) : M t unit :=
  vm ← get_state;
  if (amount <? minimumDeposit vm)%float then throw BelowMinimumDeposit
  else
    let currentStake :=
      Num.or_zero (default 0%float (JsMap.get (validators vm) address)) in
    modify (with_validators (λ v, JsMap.set v address (currentStake + amount)%float)).

(** [removeValidator(address)] *)
Definition removeValidator (address : string) : M t float :=
  vm ← get_state;
  match JsMap.get (validators vm) address with
  | None => throw NotAValidator
  | Some amount =>
      modify (with_validators (λ v, JsMap.delete v address));;
      mret amount
  end.

Definition isValidator (vm : t) (address : string) : bool :=
  JsMap.has (validators vm) address.

Definition getValidatorStake (vm : t) (address : string) : float :=
  Num.or_zero (default 0%float (JsMap.get (validators vm) address)).

(** The selection loop of [selectNextValidator]. *)
Fixpoint walk (validatorEntries : list (string * float)) (random cumulativeStake : float)
    : option string :=
  match validatorEntries with
  | [] => None
  | (address, stake) :: rest =>
      let cumulativeStake := (cumulativeStake + stake)%float in
      if (random <=? cumulativeStake)%float then Some address
      else walk rest random cumulativeStake
  end.

(** [selectNextValidator()], with [u] the value of [Math.random()];
    [None] is [null]. *)
Definition selectNextValidator (vm : t) (u : float) : option string :=
  if bool_decide (JsMap.size (validators vm) = 0%nat) then None
  else
    let validatorEntries := validators vm in
    let totalStake := fold_left (λ total e, (total + e.2)%float) validatorEntries 0%float in
    let random := (u * totalStake)%float in
    match walk validatorEntries random 0%float with
    | Some address => Some address
    | None => fst <$> head validatorEntries
    end.

(** An element of the array [processMonthlyRewards] returns:
    [{ type: 'REWARD', to, amount, data: { type: 'VALIDATOR_MONTHLY_REWARD' } }]. *)
Record reward := {
  reward_to : string;
  reward_amount : float
}.

(** [processMonthlyRewards()] *)
Definition processMonthlyRewards (vm : t) : list reward :=
  let monthlyRate := (config.validatorAPY / 12)%float in
  map (λ e, {| reward_to := e.1; reward_amount := (e.2 * monthlyRate)%float |})
    (validators vm).

Definition oneYear : Z := 365 * 24 * 60 * 60 * 1000.

(** [updateMinimumDeposit()], with [now] the value of [Date.now()]. *)
Definition updateMinimumDeposit (now : Z) : M t bool :=
  vm ← get_state;
  if bool_decide (oneYear ≤ now - lastYearlyUpdate vm)%Z then
    modify (λ vm, {| validators := validators vm;
                     minimumDeposit :=
                       (minimumDeposit vm * (1 + config.validatorDepositIncreaseRate))%float;
                     lastYearlyUpdate := now |});;
    mret true
  else mret false.

(** The loop of [checkMinimumDeposit]; it deletes only the entry it is
    visiting, so the live iterator visits the entries the map had when the
    loop began, each once. *)
Fixpoint checkEntries (entries removedValidators : list (string * float))
    : M t (list (string * float)) :=
  match entries with
  | [] => mret removedValidators
  | (address, stake) :: rest =>
      vm ← get_state;
      if (stake <? minimumDeposit vm)%float then
        modify (with_validators (λ v, JsMap.delete v address));;
        checkEntries rest (removedValidators ++ [(address, stake)])
      else checkEntries rest removedValidators
  end.

(** [checkMinimumDeposit()] *)
Definition checkMinimumDeposit : M t (list (string * float)) :=
  vm ← get_state;
  checkEntries (validators vm) [].

End ValidatorManager.

(** ** The remote side of [protocol.request] *)

(** How a peer answers the requests of the sync protocol.  [None] is a
    request that rejects (dial failure, stream error, timeout). *)
Record Peer := {
  sync_height : option Z;                         (* /sync/height *)
  sync_block : Z → option Block.t;                (* /sync/block {height} *)
  sync_validators : option (list (string * float));  (* /sync/validators *)
  address_pubkey : string → option (option string) (* /address/pubkey {address} *)
}.


(** What a node sends and applies, in order: the requests it issues with
    [protocol.request], the blocks it passes to [saveBlock], and the
    transactions it publishes. *)
Inductive Event :=
| RequestHeight (peerId : string)
| RequestBlock (peerId : string) (height : Z)
| RequestValidators (peerId : string)
| RequestPubkey (peerId : string) (address : string)
| SaveBlock (block : Block.t)
| Publish (transaction : Transaction.t).

(** ** The fields shared by the node classes of [p2p-node.js] and [node.js] *)

Module NodeState.

(** A value of the [messageCounts.hourly] map. *)
Record hourlyStats := {
  total : nat;
  perAddress : list (string * nat)
}.

Record t := mk {
  blockchain : Blockchain.t;
  validatorManager : ValidatorManager.t;
  peers : list string;                          (* keys of the [peers] map *)
  wallet : list (string * string);              (* address -> private key *)
  hourly : list (string * hourlyStats);         (* messageCounts.hourly *)
  events : list Event
}.

Definition with_blockchain (f : Blockchain.t → Blockchain.t) (n : t) : t :=
  {| blockchain := f (blockchain n); validatorManager := validatorManager n;
     peers := peers n; wallet := wallet n; hourly := hourly n; events := events n |}.

Definition with_validatorManager (f : ValidatorManager.t → ValidatorManager.t)
    (n : t) : t :=
  {| blockchain := blockchain n; validatorManager := f (validatorManager n);
     peers := peers n; wallet := wallet n; hourly := hourly n; events := events n |}.

Definition with_hourly (f : list (string * hourlyStats) → list (string * hourlyStats))
    (n : t) : t :=
  {| blockchain := blockchain n; validatorManager := validatorManager n;
     peers := peers n; wallet := wallet n; hourly := f (hourly n); events := events n |}.

Definition with_events (f : list Event → list Event) (n : t) : t :=
  {| blockchain := blockchain n; validatorManager := validatorManager n;
     peers := peers n; wallet := wallet n; hourly := hourly n; events := f (events n) |}.

(** Run a method of [this.blockchain]. *)
Definition on_blockchain {A} (m : M Blockchain.t A) : M t A :=
  λ n, match m (blockchain n) with
       | Return a b => Return a (with_blockchain (λ _, b) n)
       | Throw e b => Throw e (with_blockchain (λ _, b) n)
       end.

(** Run a method of [this.validatorManager]. *)
Definition on_validatorManager {A} (m : M ValidatorManager.t A) : M t A :=
  λ n, match m (validatorManager n) with
       | Return a v => Return a (with_validatorManager (λ _, v) n)
       | Throw e v => Throw e (with_validatorManager (λ _, v) n)
       end.

Definition emit (e : Event) : M t unit := modify (with_events (λ l, l ++ [e])).

(** [this.blockchain.saveBlock(block)] *)
Definition saveBlock (block : Block.t) : M t unit :=
  emit (SaveBlock block);;
  on_blockchain (Blockchain.saveBlock block).

(** [validatorManager.save()] *)
Definition saveValidatorManager : M t unit :=
  n ← get_state;
  let vm := validatorManager n in
  let validatorsObj :=
    fold_left (λ obj e, JsMap.set obj e.1 e.2) (ValidatorManager.validators vm) [] in
  modify (with_blockchain (Blockchain.with_db (λ d,
    Db.with_validator_min_deposit (λ _, Some (ValidatorManager.minimumDeposit vm))
      (Db.with_validator_last_update (λ _, Some (ValidatorManager.lastYearlyUpdate vm))
         (Db.with_validators (λ _, Some validatorsObj) d))))).

Section Requests.
Variable network : string → Peer.

(** The loop over the peers in the [catch] branch of
    [getPublicKeyForAddress]. *)
Fixpoint pubkeyFromPeers (peerIds : list string) (address : string)
    : M t (option string) :=
  match peerIds with
  | [] => mret None
  | peerId :: rest =>
      emit (RequestPubkey peerId address);;
      match address_pubkey (network peerId) address with
      | Some (Some publicKey) =>
          if bool_decide (publicKey = "") then pubkeyFromPeers rest address
          else
            modify (with_blockchain (Blockchain.with_db
                      (Db.with_pubkey (insert address publicKey))));;
            mret (Some publicKey)
      | _ => pubkeyFromPeers rest address
      end
  end.

(** [getPublicKeyForAddress(address)] *)
Definition getPublicKeyForAddress (address : string) : M t (option string) :=
  n ← get_state;
  match Db.pubkey (Blockchain.db (blockchain n)) !! address with
  | Some publicKey => mret (Some publicKey)
  | None => pubkeyFromPeers (peers n) address
  end.

End Requests.

(** [resetMessageCounts()] *)
Definition resetMessageCounts : M t unit := modify (with_hourly (λ _, [])).

End NodeState.

(** ** [p2p-node.js], class [P2PNode] *)

Module P2PNode.
Import NodeState.

Section WithNetwork.
Context `{Runtime}.
Variable network : string → Peer.

(** The body of the block loop of [syncWithPeer]: request the block at
    height [i], then pass it to [saveBlock]. *)
Definition syncBlock (peerId : string) (i : Z) : M NodeState.t unit :=
  emit (RequestBlock peerId i);;
  match sync_block (network peerId) i with
  | None => throw RequestFailed
  | Some blockResponse => NodeState.saveBlock (Block.fromJSON blockResponse)
  end.

(** The block loop of [syncWithPeer]:
    [for (let i = ourHeight + 1; i <= peerHeight; i++)], with [count] the
    number of iterations left. *)
Fixpoint syncBlocks (peerId : string) (i : Z) (count : nat) : M NodeState.t unit :=
  match count with
  | O => mret tt
  | S count' => syncBlock peerId i;; syncBlocks peerId (i + 1) count'
  end.

(** The validator loop of [syncWithPeer]. *)
Definition syncValidators (entries : list (string * float)) : M NodeState.t unit :=
  for_of entries (λ e,
    n ← get_state;
    if negb (ValidatorManager.isValidator (validatorManager n) e.1) then
      on_validatorManager (ValidatorManager.registerValidator e.1 e.2)
    else mret tt).

(** [ourHeight] in [syncWithPeer]: the height of the latest block, [-1]
    when there is none. *)
Definition ourHeight (n : NodeState.t) : Z :=
  match Db.latest_block (Blockchain.db (blockchain n)) with
  | Some latestBlock => Block.height latestBlock
  | None => (-1)%Z
  end.

(** [syncWithPeer(peerId)]; the [catch] block logs and rethrows. *)
Definition syncWithPeer (peerId : string) : M NodeState.t unit :=
  emit (RequestHeight peerId);;
  match sync_height (network peerId) with
  | None => throw RequestFailed
  | Some peerHeight =>
      n ← get_state;
      let ourHeight := ourHeight n in
      (if bool_decide (ourHeight < peerHeight)%Z
       then syncBlocks peerId (ourHeight + 1) (Z.to_nat (peerHeight - ourHeight))
       else mret tt);;
      emit (RequestValidators peerId);;
      match sync_validators (network peerId) with
      | None => throw RequestFailed
      | Some validators =>
          syncValidators validators;;
          saveValidatorManager
      end
  end.

(** [syncBlockchain()], with [choice] the index
    [Math.floor(Math.random() * peerIds.length)]. *)
Definition syncBlockchain (choice : nat) : M NodeState.t unit :=
  n ← get_state;
  match peers n !! choice with
  | None => mret tt
  | Some randomPeerId => syncWithPeer randomPeerId
  end.

(** [block.verifySignature(callback)] with the callback that
    [handleBlockMessage] passes.  [!this.signature] holds for [null] and
    for the empty string, [!publicKey] likewise. *)
Definition verifyBlockSignature (block : Block.t) : M NodeState.t bool :=
  match Block.signature block with
  | None => mret false
  | Some signature =>
      if bool_decide (signature = "") then mret false
      else
        publicKey ← getPublicKeyForAddress network (Block.validator block);
        match publicKey with
        | None => mret false
        | Some publicKey =>
            if bool_decide (publicKey = "") then mret false
            else mret (ec_verify (Block.hash block) signature publicKey)
        end
  end.

(** [handleBlockMessage(message)], with [blockData] the parsed payload of
    the gossip message. *)
Definition handleBlockMessage (blockData : Block.t) (choice : nat)
    : M NodeState.t unit :=
  try_catch
    (let block := Block.fromJSON blockData in
     n ← get_state;
     let latest : Z * option string :=
       match Db.latest_block (Blockchain.db (blockchain n)) with
       | Some latestBlock => (Block.height latestBlock, Some (Block.hash latestBlock))
       | None => ((-1)%Z, None)
       end in
     if bool_decide (Block.height block ≤ latest.1)%Z then mret tt
     else if bool_decide (latest.1 + 1 < Block.height block)%Z then syncBlockchain choice
     else if bool_decide (0 ≤ latest.1)%Z
             && negb (bool_decide (Some (Block.previousHash block) = latest.2))
     then mret tt
     else
       isValid ← verifyBlockSignature block;
       if negb isValid then mret tt
       else NodeState.saveBlock block)
    (λ _, mret tt).

(** [handleTransactionMessage(message)], with [txData] the parsed payload
    of the gossip message and [now] the value of [Date.now()] in the
    constructor. *)
Definition handleTransactionMessage (txData : Transaction.t) (now : Z)
    : M NodeState.t unit :=
  try_catch
    (let tx := Transaction.fromJSON txData now in
     n ← get_state;
     match Blockchain.getTransaction (blockchain n) (Transaction.hash tx) now with
     | Some _ => mret tt
     | None =>
         if negb (Transaction.verifyHash tx) then mret tt
         else
           _ ← on_blockchain (Blockchain.addTransaction tx);
           mret tt
     end)
    (λ _, mret tt).

(** [handleValidatorMessage(message)], with [action], [address] and
    [amount] the properties of the parsed payload. *)
Definition handleValidatorMessage (action address : string) (amount : float)
    : M NodeState.t unit :=
  try_catch
    ((if bool_decide (action = "register") then
        on_validatorManager (ValidatorManager.registerValidator address amount)
      else if bool_decide (action = "withdraw") then
        _ ← on_validatorManager (ValidatorManager.removeValidator address);
        mret tt
      else mret tt);;
     saveValidatorManager)
    (λ _, mret tt).

End WithNetwork.

End P2PNode.

(** ** [address.js] *)

Module Address.

(** The character class [[1-9a-z]]. *)
Definition unique_char (c : ascii) : bool :=
  let n := nat_of_ascii c in
  ((49 <=? n)%nat && (n <=? 57)%nat) || ((97 <=? n)%nat && (n <=? 122)%nat).

(** [isValidAddress(address)]: the regular expression
    [^Dou[1-9a-z]{10}cyA$]. *)
Definition isValidAddress (address : string) : bool :=
  let chars := list_ascii_of_string address in
  bool_decide (take 3 chars = list_ascii_of_string "Dou")
  && bool_decide (length (take 10 (drop 3 chars)) = 10%nat)
  && forallb unique_char (take 10 (drop 3 chars))
  && bool_decide (drop 13 chars = list_ascii_of_string "cyA").

(** The character set of [hashToUniqueString]. *)
Definition charSet : list ascii :=
  list_ascii_of_string "123456789abcdefghijklmnopqrstuvwxyz".

(** The value of a hexadecimal digit. *)
Definition hex_digit (c : ascii) : option nat :=
  let n := nat_of_ascii c in
  if (48 <=? n)%nat && (n <=? 57)%nat then Some (n - 48)%nat
  else if (97 <=? n)%nat && (n <=? 102)%nat then Some (n - 87)%nat
  else if (65 <=? n)%nat && (n <=? 70)%nat then Some (n - 55)%nat
  else None.

(** [parseInt(hash.substr(i * 2, 2), 16)] where the two characters are
    hexadecimal digits, as they are in a digest in hex; [None] where they
    are not, a case this embedding does not follow further. *)
Definition byteAt (hash : list ascii) (i : nat) : option nat :=
  match take 2 (drop (i * 2) hash) with
  | [c1; c2] =>
      match hex_digit c1, hex_digit c2 with
      | Some d1, Some d2 => Some (16 * d1 + d2)%nat
      | _, _ => None
      end
  | _ => None
  end.

(** [hashToUniqueString(hash, length)] *)
Definition hashToUniqueString (hash : string) (length : nat) : option string :=
  string_of_list_ascii <$>
    mapM (λ i, byte ← byteAt (list_ascii_of_string hash) i;
               charSet !! (byte mod List.length charSet)%nat)
         (seq 0 length).

Section WithRuntime.
Context `{Runtime}.

(** [publicKeyToAddress(publicKey)] *)
Definition publicKeyToAddress (publicKey : string) : option string :=
  uniquePart ← hashToUniqueString (sha256_hex publicKey) 10;
  Some ("Dou" +:+ uniquePart +:+ "cyA").

End WithRuntime.

End Address.

(** ** [node.js], class [Node] *)

Module Node.
Import NodeState.

(** The object [sendMessage] returns. *)
Record sent := {
  messageId : string;
  reward : float;
  fee : float
}.

Definition noStats : hourlyStats := {| total := 0; perAddress := [] |}.

(** [this.messageCounts.hourly.get(fromAddress) || { total: 0, perAddress: {} }] *)
Definition statsOf (n : NodeState.t) (fromAddress : string) : hourlyStats :=
  default noStats (JsMap.get (hourly n) fromAddress).

(** [hourlyStats.perAddress[toAddress] || 0] *)
Definition sentTo (n : NodeState.t) (fromAddress toAddress : string) : nat :=
  default 0%nat (JsMap.get (perAddress (statsOf n fromAddress)) toAddress).

(** [checkMessageRateLimits(fromAddress, toAddress)] *)
Definition checkMessageRateLimits (fromAddress toAddress : string)
    : M NodeState.t unit :=
  n ← get_state;
  let hourlyStats := statsOf n fromAddress in
  if bool_decide (config.maxMessagesPerHour ≤ total hourlyStats)%nat
  then throw MessageRateLimitExceeded
  else
    let perAddressCount := sentTo n fromAddress toAddress in
    if bool_decide (config.maxMessagesToAddressPerHour ≤ perAddressCount)%nat
    then throw MessageRateLimitToAddressExceeded
    else mret tt.

(** [updateMessageCount(fromAddress, toAddress)] *)
Definition updateMessageCount (fromAddress toAddress : string) : M NodeState.t unit :=
  modify (with_hourly (λ h,
    let hourlyStats := default noStats (JsMap.get h fromAddress) in
    JsMap.set h fromAddress
      {| total := S (total hourlyStats);
         perAddress :=
           JsMap.set (perAddress hourlyStats) toAddress
             (default 0%nat (JsMap.get (perAddress hourlyStats) toAddress) + 1)%nat |})).

(** [blockchain.isWhitelisted(owner, target)] *)
Definition isWhitelisted (n : NodeState.t) (owner target : string) : bool :=
  bool_decide
    (Some target ∈ default [] (Db.whitelist (Blockchain.db (blockchain n)) !! owner)).

(** [wallet.getPrivateKey(address)] followed by [if (!privateKey)]. *)
Definition getPrivateKey (address : string) : M NodeState.t string :=
  n ← get_state;
  match JsMap.get (wallet n) address with
  | None => throw AddressNotInWallet
  | Some privateKey =>
      if bool_decide (privateKey = "") then throw AddressNotInWallet
      else mret privateKey
  end.

Section WithNetwork.
Context `{Runtime}.
Variable network : string → Peer.
(** [Encryption.encryptMessage(message, publicKey)] *)
Variable encryptMessage : string → option string → string.

(** [sendMessage(fromAddress, toAddress, message)], with [now] the value of
    [Date.now()] in the [Transaction] constructor. *)
Definition sendMessage (fromAddress toAddress message : string) (now : Z)
    : M NodeState.t sent :=
  if negb (Address.isValidAddress fromAddress) || negb (Address.isValidAddress toAddress)
  then throw InvalidAddressFormat
  else
    privateKey ← getPrivateKey fromAddress;
    checkMessageRateLimits fromAddress toAddress;;
    n ← get_state;
    let isWhitelisted := isWhitelisted n toAddress fromAddress in
    publicKey ← getPublicKeyForAddress network toAddress;
    let encryptedMessage := encryptMessage message publicKey in
    let tx := Transaction.createMessage fromAddress toAddress encryptedMessage
                isWhitelisted now in
    let tx := if isWhitelisted
              then Transaction.with_rewards config.sendReward config.receiveReward tx
              else Transaction.with_fee config.nonWhitelistedFee tx in
    let tx := Transaction.sign privateKey tx in
    txHash ← on_blockchain (Blockchain.addTransaction tx);
    emit (Publish tx);;
    updateMessageCount fromAddress toAddress;;
    mret {| messageId := txHash;
            reward := if isWhitelisted then config.sendReward else 0%float;
            fee := if isWhitelisted then 0%float else config.nonWhitelistedFee |}.

End WithNetwork.

End Node.

(** ** A runtime for evaluating the definitions on concrete inputs *)

(** The digest is the identity, so it is collision free; a number is
    rendered by its sign, mantissa and exponent, a string between two quote
    characters. *)
Definition quote_char : ascii := ascii_of_nat 34.

Definition plain_runtime : Runtime :=
  {| sha256_hex := λ s, s;
     number_to_json := λ x,
       match Prim2SF x with
       | S754_zero _ => "0"
       | S754_infinity _ => "null"
       | S754_nan => "null"
       | S754_finite s m e =>
           (if s then "-" else "") +:+ pretty (Zpos m) +:+ "p" +:+ pretty e
       end;
     string_to_json := λ s, String quote_char (s +:+ String quote_char "");
     ec_sign := λ data privateKey, data +:+ "|" +:+ privateKey;
     ec_verify := λ data signature publicKey,
                    bool_decide (signature = data +:+ "|" +:+ publicKey) |}.

(** ** Frame conditions *)

(** A computation leaves the component [proj] of the state as it found it,
    whether it returns or throws. *)
Definition preserves {S A X} (proj : S → X) (m : M S A) : Prop :=
  ∀ s, proj (final (m s)) = proj s.

(** ** Quantities the properties speak about *)

(** The chain as a node records it: balances, the block records under
    [BLOCK_], [BLOCK_HEIGHT_] and [BLOCK_HASH_], the latest block, and
    [currentHeight]. *)
Definition chainRecords (n : NodeState.t) :=
  let chain := NodeState.blockchain n in
  (Db.balance (Blockchain.db chain), Db.block (Blockchain.db chain),
   Db.block_height (Blockchain.db chain), Db.block_hash (Blockchain.db chain),
   Db.latest_block (Blockchain.db chain), Blockchain.currentHeight chain).

(** The sum of all recorded address balances, each as [getAddressBalance]
    reads it, added up in double precision. *)
Definition totalBalance (st : Blockchain.t) : float :=
  map_fold (λ _ balance acc, (Num.stored balance + acc)%float) 0%float
    (Db.balance (Blockchain.db st)).

(** The sum of the amounts of the MINT and REWARD transactions of a list. *)
Definition mintedAmount (txs : list TxObject) : float :=
  foldr (λ o acc, (Transaction.amount (fields o) + acc)%float) 0%float
    (filter (λ o, Transaction.type (fields o) ∈ ["MINT"; "REWARD"]) txs).

(** An address is the sender or the recipient of one of the transactions:
    it shares a balance key with it. *)
Definition party (txs : list TxObject) (address : option string) : Prop :=
  ∃ o, o ∈ txs
       ∧ (Blockchain.address_text address
            = Blockchain.address_text (Transaction.from (fields o))
          ∨ Blockchain.address_text address
            = Blockchain.address_text (Transaction.to (fields o))).



(** ** Concrete inputs *)

Module Example.

Definition alice : string := "Doue8eylmv193cyA".
Definition bob : string := "Dou1111111111cyA".

(** A MESSAGE between whitelisted parties, as [Transaction.fromJSON] builds
    it from a gossiped payload: no fee, the configured rewards. *)
Definition rewardedMessage : Transaction.t :=
  @Transaction.rehash plain_runtime
  {| Transaction.type := "MESSAGE";
     Transaction.from := Some alice;
     Transaction.to := Some bob;
     Transaction.amount := 0%float;
     Transaction.fee := 0%float;
     Transaction.data := [("message", Json.String "hello"); ("isWhitelisted", Json.Bool true)];
     Transaction.timestamp := 1700000000000;
     Transaction.hash := "";
     Transaction.signature := Some "sig";
     Transaction.senderReward := config.sendReward;
     Transaction.receiverReward := config.receiveReward |}.

(** A block of height 1 that holds this one message. *)
Definition messageBlock : Block.t :=
  {| Block.height := 1;
     Block.previousHash := "g";
     Block.transactions := [Instance rewardedMessage];
     Block.validator := alice;
     Block.timestamp := 1700000000001;
     Block.hash := "b1";
     Block.signature := Some "sig" |}.

(** A ledger in which [alice] holds the initial supply. *)
Definition funded : Blockchain.t :=
  Blockchain.with_db (Db.with_balance (insert alice 15000%float))
    (Blockchain.new Db.empty).


(** A node at height 5. *)
Definition head : Block.t :=
  {| Block.height := 5;
     Block.previousHash := "h4";
     Block.transactions := [];
     Block.validator := alice;
     Block.timestamp := 1700000000005;
     Block.hash := "h5";
     Block.signature := Some "sig" |}.

Definition node : NodeState.t :=
  {| NodeState.blockchain :=
       {| Blockchain.db :=
            Db.with_latest_block (λ _, Some head)
              (Db.with_block_height (λ m, <[5%Z := "h5"]> (<[0%Z := "g0"]> m))
                 (Db.with_balance (insert alice 15000%float) Db.empty));
          Blockchain.validators := [];
          Blockchain.validatorMinDeposit := config.validatorMinDeposit;
          Blockchain.currentHeight := 5;
          Blockchain.pendingTransactions := [] |};
     NodeState.validatorManager :=
       {| ValidatorManager.validators := [];
          ValidatorManager.minimumDeposit := config.validatorMinDeposit;
          ValidatorManager.lastYearlyUpdate := 0 |};
     NodeState.peers := ["peer"];
     NodeState.wallet := [(alice, "key")];
     NodeState.hourly := [];
     NodeState.events := [] |}.

(** A block of height 0 that mints a million DOU to [bob], as a peer may
    send it in answer to any [/sync/block] request. *)
Definition staleBlock : Block.t :=
  {| Block.height := 0;
     Block.previousHash := "0";
     Block.transactions :=
       [Plain {| Transaction.type := "MINT";
                 Transaction.from := None;
                 Transaction.to := Some bob;
                 Transaction.amount := 1000000%float;
                 Transaction.fee := 0%float;
                 Transaction.data := [];
                 Transaction.timestamp := 1700000000006;
                 Transaction.hash := "t0";
                 Transaction.signature := None;
                 Transaction.senderReward := 0%float;
                 Transaction.receiverReward := 0%float |}];
     Block.validator := bob;
     Block.timestamp := 1700000000006;
     Block.hash := "forged";
     Block.signature := None |}.

(** The block that follows [head], and a peer that serves it. *)
Definition next : Block.t :=
  {| Block.height := 6;
     Block.previousHash := "h5";
     Block.transactions := [];
     Block.validator := alice;
     Block.timestamp := 1700000000006;
     Block.hash := "h6";
     Block.signature := Some "sig" |}.

Definition honestPeer : Peer :=
  {| sync_height := Some 6%Z;
     sync_block := λ h, if bool_decide (h = 6%Z) then Some next else None;
     sync_validators := Some [(bob, 60%float)];
     address_pubkey := λ _, None |}.

(** A peer that reports height 6 and answers every block request with
    [staleBlock]. *)
Definition stalePeer : Peer :=
  {| sync_height := Some 6%Z;
     sync_block := λ _, Some staleBlock;
     sync_validators := Some [];
     address_pubkey := λ _, None |}.


(** A ledger at height 5 whose validator [alice] has one valid pending
    transaction to put into a block. *)
Definition producing : Blockchain.t :=
  {| Blockchain.db :=
       Db.with_latest_block (λ _, Some head)
         (Db.with_balance (insert alice 15000%float) Db.empty);
     Blockchain.validators := [(Some alice, 60%float)];
     Blockchain.validatorMinDeposit := config.validatorMinDeposit;
     Blockchain.currentHeight := 5;
     Blockchain.pendingTransactions := [rewardedMessage] |}.

(** A registry in which [alice] has staked 60, and a node that holds it. *)
Definition registry : ValidatorManager.t :=
  {| ValidatorManager.validators := [(alice, 60%float)];
     ValidatorManager.minimumDeposit := config.validatorMinDeposit;
     ValidatorManager.lastYearlyUpdate := 0 |}.


End Example.

(** * Properties *)

(** ** Strings *)

Lemma string_app_cons (ch : ascii) (a b : string) :
  String ch a +:+ b = String ch (a +:+ b).
Proof. reflexivity. Qed.

Lemma string_app_assoc (a b c : string) : (a +:+ b) +:+ c = a +:+ (b +:+ c).
Proof.
  induction a as [|ch a IH]; [reflexivity|].
  rewrite !string_app_cons. f_equal. exact IH.
Qed.

Lemma string_app_inv_head (p a b : string) : p +:+ a = p +:+ b → a = b.
Proof. apply (inj (String.append p)). Qed.

(** ** Transactions: the hash stored by the constructor *)

Section TransactionFacts.
Context `{Runtime}.

(** The constructor hashes a string that stops after the [timestamp]
    property; [calculateHash] on a finished object hashes a string that
    goes on with [,"senderReward":...], whatever the two rewards are. *)
Lemma constructor_preimage_short ty f t a fe d now (sR rR : float) :
  Transaction.constructor_preimage ty f t a fe d now
  ≠ Json.stringify_object
      (Transaction.txData ty f t a fe d now (Json.Number sR) (Json.Number rR)).
Proof.
  unfold Transaction.constructor_preimage, Json.stringify_object, Transaction.txData.
  cbn [Json.members Json.stringify Transaction.address_json].
  destruct f, t; cbn [Json.members Json.stringify Transaction.address_json Json.join_comma];
    rewrite !string_app_assoc; intros Heq;
    repeat (apply string_app_inv_head in Heq);
    discriminate Heq.
Qed.

Lemma constructor_preimage_differs ty f t a fe d now :
  Transaction.constructor_preimage ty f t a fe d now
  ≠ Transaction.preimage (Transaction.new ty f t a fe d now).
Proof. apply constructor_preimage_short. Qed.

(** C1 (as the code has it).  On a transaction that comes straight out of
    the constructor, whatever the type, sender, recipient, amount, fee and
    data, [verifyHash()] compares the digests of two different strings: the
    stored hash was taken before [senderReward] and [receiverReward] were
    assigned.  It returns [true] exactly when SHA-256 collides on these two
    strings, and [false] when the hash is collision free. *)
Theorem verifyHash_after_construction ty f t a fe d now :
  let tx := Transaction.new ty f t a fe d now in
  let stored := Transaction.constructor_preimage ty f t a fe d now in
  let recomputed := Transaction.preimage tx in
  stored ≠ recomputed
  ∧ (Transaction.verifyHash tx = true ↔ collision stored recomputed)
  ∧ (collision_free → Transaction.verifyHash tx = false).
Proof.
  cbv zeta.
  pose proof (constructor_preimage_differs ty f t a fe d now) as Hne.
  split; [exact Hne|]. split.
  - unfold Transaction.verifyHash, collision. rewrite bool_decide_eq_true.
    split; [by split | by intros [_ Heq]].
  - intros Hfree. unfold Transaction.verifyHash.
    apply bool_decide_eq_false. intros Heq. apply Hne, Hfree, Heq.
Qed.

(** Recomputing the hash after construction, as the reward paths do,
    makes the transaction hash-consistent. *)
Lemma verifyHash_rehash tx : Transaction.verifyHash (Transaction.rehash tx) = true.
Proof. unfold Transaction.verifyHash. by apply bool_decide_eq_true. Qed.

End TransactionFacts.

Lemma plain_runtime_collision_free : @collision_free plain_runtime.
Proof. intros s1 s2 Heq. exact Heq. Qed.

Lemma verifyHash_after_construction_witness :
  @collision_free plain_runtime
  ∧ @Transaction.verifyHash plain_runtime
      (@Transaction.new plain_runtime "TRANSFER" (Some "Doue8eylmv193cyA")
         (Some "Dou1111111111cyA") 200%float 0.1%float [] 1700000000000)
    = false.
Proof.
  split; [exact plain_runtime_collision_free|].
  apply (@verifyHash_after_construction plain_runtime).
  exact plain_runtime_collision_free.
Defined.

(** ** The validity predicate *)

(** Decide the comparisons of a known [type] string with the literals of
    a [switch] or an [if] chain. *)
Ltac decide_type :=
  repeat match goal with
  | |- context [bool_decide (?a ∈ ?l)] =>
      first
        [ rewrite (bool_decide_eq_true_2 (a ∈ l))
            by (rewrite ?elem_of_cons; auto 6)
        | rewrite (bool_decide_eq_false_2 (a ∈ l))
            by (rewrite ?elem_of_cons, elem_of_nil;
                intuition (discriminate || congruence)) ]
  | |- context [bool_decide (@eq string ?a ?b)] =>
      first
        [ rewrite (bool_decide_eq_true_2 (a = b)) by (reflexivity || assumption)
        | rewrite (bool_decide_eq_false_2 (a = b))
            by (discriminate || assumption || congruence) ]
  end.

Section Validity.
Context `{Runtime}.

(** C4 (amended).  For a hash-consistent transaction [isTransactionValid]
    returns the table of the types, with the sum and the comparisons of
    JavaScript numbers (the sum [amount + fee] is rounded to double
    precision, and a comparison with [NaN] is false): a TRANSFER is valid iff
    sender balance >= amount + fee; a VALIDATOR_REGISTER iff in addition
    amount >= the current minimum deposit; a VALIDATOR_WITHDRAW iff the
    sender is in the validator map; a MESSAGE iff [fee > 0] is false or
    sender balance >= fee; MINT, REWARD and WHITELIST always. *)
Theorem isTransactionValid_table (st : Blockchain.t) (tx : Transaction.t) :
  Transaction.verifyHash tx = true →
  let balance := Blockchain.getAddressBalance st (Transaction.from tx) in
  let amount := Transaction.amount tx in
  let fee := Transaction.fee tx in
  let valid := Blockchain.isTransactionValid st tx in
  (Transaction.type tx = "TRANSFER" →
     valid = (amount + fee <=? balance)%float)
  ∧ (Transaction.type tx = "VALIDATOR_REGISTER" →
     valid = (amount + fee <=? balance)%float
             && (Blockchain.validatorMinDeposit st <=? amount)%float)
  ∧ (Transaction.type tx = "VALIDATOR_WITHDRAW" →
     valid = JsMap.has (Blockchain.validators st) (Transaction.from tx))
  ∧ (Transaction.type tx = "MESSAGE" →
     valid = negb (0 <? fee)%float || (fee <=? balance)%float)
  ∧ (Transaction.type tx ∈ ["MINT"; "REWARD"; "WHITELIST"] → valid = true).
Proof.
  intros Hhash. cbv zeta. unfold Blockchain.isTransactionValid.
  rewrite Hhash. cbn [negb].
  split; [|split; [|split; [|split]]].
  - intros ->. by decide_type.
  - intros ->. by decide_type.
  - intros ->. by decide_type.
  - intros ->. decide_type. by destruct (0 <? Transaction.fee tx)%float.
  - rewrite !elem_of_cons, elem_of_nil.
    intros [-> | [-> | [-> | []]]]; by decide_type.
Qed.

End Validity.

(** C4 as stated fails for a MESSAGE with a negative fee sent from an
    address whose balance is below the fee: the fee is not zero and the
    balance does not cover it, yet the predicate returns [true], because it
    looks at the balance only when the fee is positive. *)
Lemma isTransactionValid_message_negative_fee :
  let tx := @Transaction.rehash plain_runtime
              (@Transaction.new plain_runtime "MESSAGE" (Some "Doue8eylmv193cyA")
                 (Some "Dou1111111111cyA") 0%float (-1)%float [] 1700000000000) in
  let st := Blockchain.with_db (Db.with_balance (insert "Doue8eylmv193cyA" (-2)%float))
              (Blockchain.new Db.empty) in
  let balance := Blockchain.getAddressBalance st (Transaction.from tx) in
  @Transaction.verifyHash plain_runtime tx = true
  ∧ Transaction.type tx = "MESSAGE"
  ∧ @Blockchain.isTransactionValid plain_runtime st tx = true
  ∧ (Transaction.fee tx =? 0)%float || (Transaction.fee tx <=? balance)%float = false.
Proof. cbv zeta. repeat split; by vm_compute. Qed.

(** The table at a TRANSFER of 0.1 with a fee of 0.2 from a balance of 0.3:
    the sum is 0.30000000000000004 in double precision, above the balance,
    and the transaction is not valid. *)
Lemma isTransactionValid_table_witness :
  let tx := @Transaction.rehash plain_runtime
              (@Transaction.new plain_runtime "TRANSFER" (Some "Doue8eylmv193cyA")
                 (Some "Dou1111111111cyA") 0.1%float 0.2%float []
                 1700000000000) in
  let st := Blockchain.with_db (Db.with_balance (insert "Doue8eylmv193cyA" 0.3%float))
              (Blockchain.new Db.empty) in
  @Transaction.verifyHash plain_runtime tx = true
  ∧ @Blockchain.isTransactionValid plain_runtime st tx
    = (Transaction.amount tx + Transaction.fee tx
       <=? Blockchain.getAddressBalance st (Transaction.from tx))%float
  ∧ @Blockchain.isTransactionValid plain_runtime st tx = false.
Proof.
  cbv zeta. split; [by vm_compute|]. split.
  - refine (proj1 (@isTransactionValid_table plain_runtime _ _ _) _);
      [by vm_compute | reflexivity].
  - by vm_compute.
Defined.
(** ** [Map]: reading after writing *)

Section JsMapFacts.
Context {K V : Type} `{EqDecision K}.
Implicit Types (m : list (K * V)) (k : K) (v : V).

Lemma JsMap_get_set_eq m k v : JsMap.get (JsMap.set m k v) k = Some v.
Proof.
  induction m as [|[k' v'] m IH]; simpl.
  - by rewrite decide_True.
  - destruct (decide (k' = k)) as [->|Hne]; simpl.
    + by rewrite decide_True.
    + by rewrite decide_False.
Qed.


Lemma JsMap_get_delete_eq m k :
  NoDup (JsMap.keys m) → JsMap.get (JsMap.delete m k) k = None.
Proof.
  induction m as [|[k0 v0] m IH]; simpl; [done|].
  intros [Hnotin Hnd]%NoDup_cons.
  destruct (decide (k0 = k)) as [->|Hne]; simpl.
  - clear IH Hnd. induction m as [|[k1 v1] m IH]; simpl; [done|].
    simpl in Hnotin. apply not_elem_of_cons in Hnotin as [Hne Hnotin].
    rewrite decide_False by done. by apply IH.
  - rewrite decide_False by done. by apply IH.
Qed.

Lemma JsMap_get_Some_key m k v : JsMap.get m k = Some v → k ∈ JsMap.keys m.
Proof.
  induction m as [|[k0 v0] m IH]; simpl; [done|].
  destruct (decide (k0 = k)) as [->|Hne]; intros Hget.
  - apply list_elem_of_here.
  - apply list_elem_of_further. by apply IH.
Qed.

Lemma JsMap_key_has m k : k ∈ JsMap.keys m → JsMap.has m k = true.
Proof.
  unfold JsMap.has. induction m as [|[k0 v0] m IH]; simpl.
  - intros Hin. by apply elem_of_nil in Hin.
  - intros [->|Hin]%elem_of_cons.
    + by rewrite decide_True.
    + destruct (decide (k0 = k)); [done|]. by apply IH.
Qed.


Lemma JsMap_has_false_get m k : JsMap.has m k = false ↔ JsMap.get m k = None.
Proof. unfold JsMap.has. by destruct (JsMap.get m k). Qed.

End JsMapFacts.

(** ** Running the monad *)

Ltac run :=
  unfold mbind, M_bind, bind, mret, M_ret, ret, modify, get_state, throw, try_catch.

(** ** The validator registry *)

Section Registry.
Implicit Types (vm : ValidatorManager.t) (address : string).

Lemma walk_Some_key entries random cumulativeStake address :
  ValidatorManager.walk entries random cumulativeStake = Some address →
  address ∈ JsMap.keys entries.
Proof.
  revert cumulativeStake.
  induction entries as [|[a s] entries IH]; simpl; intros c Hwalk; [done|].
  destruct (_ <=? _)%float.
  - injection Hwalk as ->. apply list_elem_of_here.
  - apply list_elem_of_further. by eapply IH.
Qed.

(** C9.  [selectNextValidator] returns [null] on an empty registry, and on
    a non-empty registry it returns the address of a registered validator,
    whatever [Math.random()] gave. *)
Theorem selectNextValidator_registered vm (u : float) :
  (ValidatorManager.validators vm = [] →
     ValidatorManager.selectNextValidator vm u = None)
  ∧ (ValidatorManager.validators vm ≠ [] →
     ∃ address,
       ValidatorManager.selectNextValidator vm u = Some address
       ∧ ValidatorManager.isValidator vm address = true).
Proof.
  unfold ValidatorManager.selectNextValidator, ValidatorManager.isValidator.
  split.
  - intros ->. reflexivity.
  - intros Hne. destruct (ValidatorManager.validators vm) as [|[a0 s0] rest] eqn:Hv;
      [done|].
    rewrite bool_decide_eq_false_2 by done.
    match goal with
    | |- context [ValidatorManager.walk ?es ?r ?c] =>
        destruct (ValidatorManager.walk es r c) as [address|] eqn:Hwalk
    end.
    + exists address. split; [reflexivity|].
      apply JsMap_key_has. by eapply walk_Some_key.
    + exists a0. split; [reflexivity|].
      apply JsMap_key_has. apply list_elem_of_here.
Qed.

Lemma selectNextValidator_registered_witness :
  let vm := {| ValidatorManager.validators := [("A", 10%float); ("B", 90%float)];
               ValidatorManager.minimumDeposit := config.validatorMinDeposit;
               ValidatorManager.lastYearlyUpdate := 0 |} in
  ValidatorManager.validators vm ≠ []
  ∧ ∃ address,
      ValidatorManager.selectNextValidator vm 0.5%float = Some address
      ∧ ValidatorManager.isValidator vm address = true.
Proof.
  cbv zeta. split; [discriminate|].
  apply (proj2 (selectNextValidator_registered _ 0.5%float)). discriminate.
Defined.

(** [registerValidator] returns exactly when the test
    [amount < this.minimumDeposit] is false. *)
Lemma registerValidator_returns vm address (amount : float) :
  returned (ValidatorManager.registerValidator address amount vm)
  = negb (amount <? ValidatorManager.minimumDeposit vm)%float.
Proof.
  unfold ValidatorManager.registerValidator. run.
  by destruct (_ <? _)%float.
Qed.

Lemma registerValidator_final vm address (amount : float) :
  (amount <? ValidatorManager.minimumDeposit vm)%float = false →
  ValidatorManager.registerValidator address amount vm
  = Return tt
      (ValidatorManager.with_validators
         (λ v, JsMap.set v address
                 (Num.or_zero
                    (default 0%float (JsMap.get (ValidatorManager.validators vm) address))
                  + amount)%float) vm).
Proof.
  intros Hle. unfold ValidatorManager.registerValidator. run.
  by rewrite Hle.
Qed.

Lemma registerValidator_throws vm address (amount : float) :
  (amount <? ValidatorManager.minimumDeposit vm)%float = true →
  ValidatorManager.registerValidator address amount vm = Throw BelowMinimumDeposit vm.
Proof.
  intros Hlt. unfold ValidatorManager.registerValidator. run.
  by rewrite Hlt.
Qed.

End Registry.
Lemma bind_run {S A B} (m : M S A) (k : A → M S B) (s : S) :
  (m ≫= k) s = match m s with
               | Return a s' => k a s'
               | Throw e s' => Throw e s'
               end.
Proof. reflexivity. Qed.

Lemma emit_run (e : Event) (n : NodeState.t) :
  NodeState.emit e n = Return tt (NodeState.with_events (λ l, l ++ [e]) n).
Proof. reflexivity. Qed.

Lemma get_state_run {S} (s : S) : get_state s = Return s s.
Proof. reflexivity. Qed.

(** ** Frame rules for the monad *)

Section Frame.
Context {S X : Type} (proj : S → X).

Lemma preserves_ret {A} (a : A) : preserves proj (mret a : M S A).
Proof. intros s. reflexivity. Qed.

Lemma preserves_throw {A} (e : Error) : preserves proj (throw e : M S A).
Proof. intros s. reflexivity. Qed.

Lemma preserves_get_state : preserves proj (get_state : M S S).
Proof. intros s. reflexivity. Qed.

Lemma preserves_modify (f : S → S) :
  (∀ s, proj (f s) = proj s) → preserves proj (modify f).
Proof. intros Hf s. apply Hf. Qed.

Lemma preserves_bind {A B} (m : M S A) (k : A → M S B) :
  preserves proj m → (∀ a, preserves proj (k a)) → preserves proj (m ≫= k).
Proof.
  intros Hm Hk s. specialize (Hm s). run.
  destruct (m s) as [a s'|e s']; simpl in *.
  - by rewrite Hk.
  - exact Hm.
Qed.

Lemma preserves_try_catch {A} (m : M S A) (h : Error → M S A) :
  preserves proj m → (∀ e, preserves proj (h e)) → preserves proj (try_catch m h).
Proof.
  intros Hm Hh s. specialize (Hm s). run.
  destruct (m s) as [a s'|e s']; simpl in *.
  - exact Hm.
  - by rewrite Hh.
Qed.

Lemma preserves_for_of {A} (xs : list A) (body : A → M S unit) :
  (∀ x, preserves proj (body x)) → preserves proj (for_of xs body).
Proof.
  intros Hbody. induction xs as [|x xs IH]; simpl.
  - apply preserves_ret.
  - apply preserves_bind; [apply Hbody | intros _; exact IH].
Qed.

End Frame.


Lemma preserves_on_validatorManager {A X} (proj : NodeState.t → X)
    (m : M ValidatorManager.t A) :
  (∀ n v, proj (NodeState.with_validatorManager (λ _, v) n) = proj n) →
  preserves proj (NodeState.on_validatorManager m).
Proof.
  intros Hproj n. unfold NodeState.on_validatorManager.
  destruct (m (NodeState.validatorManager n)); simpl; apply Hproj.
Qed.

Lemma preserves_emit {X} (proj : NodeState.t → X) (e : Event) :
  (∀ n f, proj (NodeState.with_events f n) = proj n) →
  preserves proj (NodeState.emit e).
Proof. intros Hproj n. apply Hproj. Qed.

(** ** Validator synchronisation *)

Section ValidatorSync.
Context `{Runtime}.
Variable network : string → Peer.


(** One turn of the validator loop. *)
Lemma syncValidators_step (a : string) (s : float) (entries : list (string * float))
    (n : NodeState.t) :
  let vm := NodeState.validatorManager n in
  P2PNode.syncValidators ((a, s) :: entries) n =
    if ValidatorManager.isValidator vm a then P2PNode.syncValidators entries n
    else if (s <? ValidatorManager.minimumDeposit vm)%float then
      Throw BelowMinimumDeposit (NodeState.with_validatorManager (λ _, vm) n)
    else
      P2PNode.syncValidators entries
        (NodeState.with_validatorManager
           (λ _, ValidatorManager.with_validators
                   (λ v, JsMap.set v a (0 + s)%float) vm) n).
Proof.
  cbv zeta. unfold P2PNode.syncValidators at 1. cbn [for_of]. run. cbn [fst snd].
  unfold ValidatorManager.isValidator.
  destruct (JsMap.has (ValidatorManager.validators (NodeState.validatorManager n)) a)
    eqn:Hhas; cbn [negb]; [reflexivity|].
  apply JsMap_has_false_get in Hhas.
  unfold NodeState.on_validatorManager, ValidatorManager.registerValidator. run.
  destruct (s <? _)%float; [reflexivity|].
  by rewrite Hhas.
Qed.



(** The first entry the peer sent for an address that is not a validator
    here and for which [amount < this.minimumDeposit] holds ends the loop
    with the exception of [registerValidator]; that address is not added. *)
Lemma syncValidators_aborts (a : string) (s : float) (rest : list (string * float))
    (n : NodeState.t) :
  ValidatorManager.isValidator (NodeState.validatorManager n) a = false →
  (s <? ValidatorManager.minimumDeposit (NodeState.validatorManager n))%float = true →
  ∃ n', P2PNode.syncValidators ((a, s) :: rest) n = Throw BelowMinimumDeposit n'
        ∧ NodeState.validatorManager n' = NodeState.validatorManager n.
Proof.
  intros Hnot Hlt. rewrite syncValidators_step. cbv zeta. rewrite Hnot, Hlt.
  eexists. split; [reflexivity|]. reflexivity.
Qed.

Lemma saveValidatorManager_keeps_validatorManager :
  preserves NodeState.validatorManager NodeState.saveValidatorManager.
Proof. intros n. reflexivity. Qed.



End ValidatorSync.


(** ** Registering twice *)

(** C10 (amended).  Registering accumulates stake rather than replacing it,
    on the two paths, with one difference between them.  In the registry,
    [registerValidator(address, b)] for an address whose recorded stake is
    [a] first tests [b < this.minimumDeposit]: when the test is false it
    returns and leaves the stake at [(a || 0) + b]; when it is true it throws
    and the stake stays [a].  On the ledger, applying a VALIDATOR_REGISTER
    transaction of amount [b] from a sender whose recorded stake is [a] makes
    no such test: it returns and leaves the stake at [(a || 0) + b].  The sum
    is the sum of JavaScript numbers, and [a || 0] is [a] unless [a] is [0]
    or [NaN]. *)
Theorem register_accumulates_stake :
  (∀ (vm : ValidatorManager.t) (address : string) (a b : float),
     JsMap.get (ValidatorManager.validators vm) address = Some a →
     (b <? ValidatorManager.minimumDeposit vm)%float = false →
     ∃ vm', ValidatorManager.registerValidator address b vm = Return tt vm'
            ∧ JsMap.get (ValidatorManager.validators vm') address
              = Some (Num.or_zero a + b)%float)
  ∧ (∀ (vm : ValidatorManager.t) (address : string) (b : float),
       (b <? ValidatorManager.minimumDeposit vm)%float = true →
       ValidatorManager.registerValidator address b vm = Throw BelowMinimumDeposit vm)
  ∧ (∀ (st : Blockchain.t) (tx : Transaction.t) (a : float),
       Transaction.type tx = "VALIDATOR_REGISTER" →
       JsMap.get (Blockchain.validators st) (Transaction.from tx) = Some a →
       ∃ st', Blockchain.processTransaction (Instance tx) st = Return tt st'
              ∧ JsMap.get (Blockchain.validators st') (Transaction.from tx)
                = Some (Num.or_zero a + Transaction.amount tx)%float)
  ∧ (∀ a : float, Num.truthy a = true → Num.or_zero a = a).
Proof.
  split; [|split; [|split]].
  - intros vm address a b Hget Hmin.
    rewrite registerValidator_final by done. eexists. split; [reflexivity|].
    simpl. rewrite Hget. apply JsMap_get_set_eq.
  - intros vm address b Hlt. by apply registerValidator_throws.
  - intros st tx a Hty Hget.
    unfold Blockchain.processTransaction. rewrite Hty. decide_type.
    unfold Blockchain.processValidatorRegistration, Blockchain.read_balance,
      Blockchain.put_balance, Blockchain.saveValidators,
      Blockchain.addToAddressTransactions.
    run.
    destruct (Blockchain.address_truthy (Transaction.from tx));
      destruct (Blockchain.address_truthy (Transaction.to tx) && _);
      (eexists; split; [reflexivity|]; simpl; rewrite Hget; apply JsMap_get_set_eq).
  - intros a Htruthy. unfold Num.or_zero. by rewrite Htruthy.
Qed.

(** C10 as stated fails in the registry for an amount below the minimum
    deposit: with a stake of 60 and a minimum of 50, registering 10 throws
    and the stake stays 60, not 70. *)
Lemma registerValidator_below_minimum :
  let outcome :=
    ValidatorManager.registerValidator Example.alice 10%float Example.registry in
  JsMap.get (ValidatorManager.validators Example.registry) Example.alice
    = Some 60%float
  ∧ outcome = Throw BelowMinimumDeposit Example.registry
  ∧ JsMap.get (ValidatorManager.validators (final outcome)) Example.alice
    = Some 60%float
  ∧ (60 + 10 =? 60)%float = false.
Proof. cbv zeta. repeat split; by vm_compute. Qed.

Lemma register_accumulates_stake_witness :
  JsMap.get (ValidatorManager.validators Example.registry) Example.alice
    = Some 60%float
  ∧ (55 <? ValidatorManager.minimumDeposit Example.registry)%float = false
  ∧ ∃ vm', ValidatorManager.registerValidator Example.alice 55%float Example.registry
           = Return tt vm'
           ∧ JsMap.get (ValidatorManager.validators vm') Example.alice
             = Some (Num.or_zero 60 + 55)%float.
Proof.
  split; [reflexivity|]. split; [by vm_compute|].
  apply (proj1 register_accumulates_stake); [reflexivity | by vm_compute].
Defined.
(** ** Balances: what an applied transaction writes *)

Lemma for_of_cons_run {S A} (x : A) (xs : list A) (body : A → M S unit) (s : S) :
  for_of (x :: xs) body s = match body x s with
                            | Return _ s' => for_of xs body s'
                            | Throw e s' => Throw e s'
                            end.
Proof. reflexivity. Qed.

Ltac unfold_ledger :=
  unfold Blockchain.processTransferTransaction, Blockchain.processMintTransaction,
    Blockchain.processRewardTransaction, Blockchain.processValidatorRegistration,
    Blockchain.processValidatorWithdrawal, Blockchain.processMessageTransaction,
    Blockchain.processWhitelistTransaction, Blockchain.storeMessage,
    Blockchain.saveValidators, Blockchain.addToAddressTransactions,
    Blockchain.read_balance, Blockchain.put_balance.

(** Take the comparisons of numbers in the goal one by one. *)
Ltac split_comparisons :=
  repeat match goal with
  | |- context [if (?x <? ?y)%float then _ else _] => destruct (x <? y)%float
  end.

(** Run [processTransaction] on a transaction whose [type] is known. *)
Ltac apply_typed Hty :=
  unfold Blockchain.processTransaction; rewrite Hty; decide_type;
  unfold_ledger; run.

Ltac read_balances :=
  unfold Blockchain.getAddressBalance;
  cbn [Blockchain.db Blockchain.with_db Blockchain.with_validators
       Db.balance Db.with_balance Db.with_tx Db.with_address_txs Db.with_validators
       Db.with_inbox Db.with_outbox Db.with_whitelist];
  rewrite ?lookup_insert_eq, ?lookup_insert_ne by done;
  rewrite ?lookup_insert_eq, ?lookup_insert_ne by done.

(** A transaction writes no balance other than those of its sender and its
    recipient. *)
Lemma processTransaction_other_balances (tx : Transaction.t) (st st' : Blockchain.t)
    (other : option string) :
  Blockchain.processTransaction (Instance tx) st = Return tt st' →
  Blockchain.address_text other ≠ Blockchain.address_text (Transaction.from tx) →
  Blockchain.address_text other ≠ Blockchain.address_text (Transaction.to tx) →
  Blockchain.getAddressBalance st' other = Blockchain.getAddressBalance st other.
Proof.
  intros Hrun Hfrom Hto. revert Hrun.
  assert (Hfrom' : Blockchain.address_text (Transaction.from tx)
                   ≠ Blockchain.address_text other) by congruence.
  assert (Hto' : Blockchain.address_text (Transaction.to tx)
                 ≠ Blockchain.address_text other) by congruence.
  unfold Blockchain.processTransaction.
  destruct (decide (Transaction.type tx = "TRANSFER")) as [Hty|N1];
    [rewrite Hty|];
  [|destruct (decide (Transaction.type tx = "MINT")) as [Hty|N2];
    [rewrite Hty|];
  [|destruct (decide (Transaction.type tx = "REWARD")) as [Hty|N3];
    [rewrite Hty|];
  [|destruct (decide (Transaction.type tx = "VALIDATOR_REGISTER")) as [Hty|N4];
    [rewrite Hty|];
  [|destruct (decide (Transaction.type tx = "VALIDATOR_WITHDRAW")) as [Hty|N5];
    [rewrite Hty|];
  [|destruct (decide (Transaction.type tx = "MESSAGE")) as [Hty|N6];
    [rewrite Hty|];
  [|destruct (decide (Transaction.type tx = "WHITELIST")) as [Hty|N7];
    [rewrite Hty|]]]]]]];
    decide_type; unfold_ledger; run;
    cbn [Blockchain.validators Blockchain.with_db];
    try (destruct (JsMap.get (Blockchain.validators st) (Transaction.from tx));
         [|intros Hthrow; discriminate Hthrow]);
    split_comparisons;
    destruct (Blockchain.address_truthy (Transaction.from tx));
    destruct (Blockchain.address_truthy (Transaction.to tx) && _);
    intros [= <-]; read_balances; reflexivity.
Qed.

(** C2 (amended).  The sum of the balances is not tied to the MINT and
    REWARD amounts.  What holds of the transaction loop of [saveBlock] is
    this.  A block above height 0 whose transactions have been applied in
    order leaves the balance of every address that is neither sender nor
    recipient of one of them as it was.  One applied transaction writes
    balances as follows, every sum and difference being that of JavaScript
    numbers (rounded to double precision) and every balance being read back
    from the store: a WHITELIST changes no balance; a TRANSFER between two
    different addresses leaves the sender with (balance - amount) - fee and
    the recipient with balance + amount; a MINT or a REWARD leaves the
    recipient with balance + amount; a MESSAGE between two different
    addresses leaves the sender with balance - fee when [fee > 0], else with
    balance + senderReward when [senderReward > 0], else with its balance,
    and leaves the recipient with balance + receiverReward when
    [receiverReward > 0], whatever the fee, else with its balance. *)
Theorem processTransactions_balances :
  (∀ (block : Block.t) (st st' : Blockchain.t) (other : option string),
     (0 < Block.height block)%Z →
     Blockchain.processTransactions block st = Return tt st' →
     ¬ party (Block.transactions block) other →
     Blockchain.getAddressBalance st' other = Blockchain.getAddressBalance st other)
  ∧ (∀ (tx : Transaction.t) (st st' : Blockchain.t),
       Blockchain.processTransaction (Instance tx) st = Return tt st' →
       let before := Blockchain.getAddressBalance st in
       let after := Blockchain.getAddressBalance st' in
       let from := Transaction.from tx in
       let to := Transaction.to tx in
       let amount := Transaction.amount tx in
       let fee := Transaction.fee tx in
       let different := Blockchain.address_text from ≠ Blockchain.address_text to in
       (Transaction.type tx = "WHITELIST" → ∀ address, after address = before address)
       ∧ (Transaction.type tx = "TRANSFER" → different →
          after from = Num.stored (before from - amount - fee)%float
          ∧ after to = Num.stored (before to + amount)%float)
       ∧ (Transaction.type tx ∈ ["MINT"; "REWARD"] →
          after to = Num.stored (before to + amount)%float)
       ∧ (Transaction.type tx = "MESSAGE" → different →
          after from
          = (if (0 <? fee)%float then Num.stored (before from - fee)%float
             else if (0 <? Transaction.senderReward tx)%float
                  then Num.stored (before from + Transaction.senderReward tx)%float
                  else before from)
          ∧ after to
            = (if (0 <? Transaction.receiverReward tx)%float
               then Num.stored (before to + Transaction.receiverReward tx)%float
               else before to))).
Proof.
  split.
  - intros block st st' other Hheight Hrun Hparty.
    unfold Blockchain.processTransactions in Hrun.
    rewrite bool_decide_eq_true_2 in Hrun by done.
    unfold party in Hparty.
    revert st Hrun. induction (Block.transactions block) as [|o txs IH]; intros st.
    + by intros [= <-].
    + rewrite for_of_cons_run.
      destruct o as [tx|tx]; [|intros Hthrow; discriminate Hthrow].
      destruct (Blockchain.processTransaction (Instance tx) st) as [[] st1|e st1] eqn:Hone;
        [|intros Hthrow; discriminate Hthrow].
      intros Hrest.
      rewrite (IH (λ Hx, Hparty
                 ltac:(destruct Hx as (o & Ho & Hx); exists o;
                       split; [by apply list_elem_of_further|exact Hx])) st1 Hrest).
      apply (processTransaction_other_balances tx st st1 other Hone).
      * intros Heq. apply Hparty. exists (Instance tx).
        split; [apply list_elem_of_here|by left].
      * intros Heq. apply Hparty. exists (Instance tx).
        split; [apply list_elem_of_here|by right].
  - intros tx st st' Hrun. cbv zeta. split; [|split; [|split]].
    + intros Hty address. revert Hrun. apply_typed Hty.
      destruct (Blockchain.address_truthy (Transaction.from tx));
        destruct (Blockchain.address_truthy (Transaction.to tx) && _);
        intros [= <-]; reflexivity.
    + intros Hty Hne.
      assert (Hne' : Blockchain.address_text (Transaction.to tx)
                     ≠ Blockchain.address_text (Transaction.from tx)) by congruence.
      revert Hrun. apply_typed Hty.
      destruct (Blockchain.address_truthy (Transaction.from tx));
        destruct (Blockchain.address_truthy (Transaction.to tx) && _);
        intros [= <-]; split; read_balances; reflexivity.
    + rewrite !elem_of_cons, elem_of_nil. intros [Hty|[Hty|[]]];
        revert Hrun; apply_typed Hty;
        destruct (Blockchain.address_truthy (Transaction.from tx));
        destruct (Blockchain.address_truthy (Transaction.to tx) && _);
        intros [= <-]; read_balances; reflexivity.
    + intros Hty Hne.
      assert (Hne' : Blockchain.address_text (Transaction.to tx)
                     ≠ Blockchain.address_text (Transaction.from tx)) by congruence.
      revert Hrun. apply_typed Hty.
      destruct (0 <? Transaction.fee tx)%float;
        destruct (0 <? Transaction.senderReward tx)%float;
        destruct (0 <? Transaction.receiverReward tx)%float;
        destruct (Blockchain.address_truthy (Transaction.from tx));
        destruct (Blockchain.address_truthy (Transaction.to tx) && _);
        intros [= <-]; split; read_balances; reflexivity.
Qed.

(** C2 as stated fails on a block that holds one MESSAGE between
    whitelisted parties: its transaction is applied, the block has no MINT
    and no REWARD, and the sum of the balances grows by the two rewards,
    from 15000 to 15001. *)
Lemma message_rewards_raise_total :
  let outcome := Blockchain.processTransactions Example.messageBlock Example.funded in
  returned outcome = true
  ∧ mintedAmount (Block.transactions Example.messageBlock) = 0%float
  ∧ totalBalance Example.funded = 15000%float
  ∧ totalBalance (final outcome) = 15001%float
  ∧ (totalBalance (final outcome) - totalBalance Example.funded
     =? mintedAmount (Block.transactions Example.messageBlock))%float = false
  ∧ (totalBalance Example.funded <? totalBalance (final outcome))%float = true.
Proof. cbv zeta. repeat split; by vm_compute. Qed.

(** The table at the rewarded message of [Example.messageBlock]: the sender
    ends with 15000.75, the recipient with 0.25. *)
Lemma processTransactions_balances_witness :
  let st' := final (Blockchain.processTransaction
                      (Instance Example.rewardedMessage) Example.funded) in
  Blockchain.processTransaction (Instance Example.rewardedMessage) Example.funded
    = Return tt st'
  ∧ Blockchain.getAddressBalance st' (Some Example.alice) = 15000.75%float
  ∧ Blockchain.getAddressBalance st' (Some Example.bob) = 0.25%float.
Proof.
  cbv zeta. split; [reflexivity|].
  pose proof (proj2 (proj2 (proj2
                (proj2 processTransactions_balances Example.rewardedMessage
                   Example.funded _ eq_refl)))) as Hmessage.
  cbv zeta in Hmessage.
  destruct (Hmessage eq_refl ltac:(discriminate)) as [Hfrom Hto].
  split.
  - etransitivity; [exact Hfrom|]. by vm_compute.
  - etransitivity; [exact Hto|]. by vm_compute.
Defined.
(** ** Stale blocks *)

(** [saveBlock] throws on every block, before its first write. *)
Lemma saveBlock_throws (block : Block.t) (st : Blockchain.t) :
  Blockchain.saveBlock block st
  = Throw (FailedToSaveBlock MaximumCallStackSizeExceeded) st.
Proof. reflexivity. Qed.

Section StaleBlocks.
Context `{Runtime}.
Variable network : string → Peer.

(** Block production stops at [saveBlock]: an eligible producer with a
    latest block and a valid pending transaction gets the exception, and the
    reward step is not reached. *)
Lemma createBlock_throws (validatorAddress : string) (signCallback : string → string)
    (now_block now_reward : Z) (st : Blockchain.t) :
  JsMap.has (Blockchain.validators st) (Some validatorAddress) = true →
  is_Some (Db.latest_block (Blockchain.db st)) →
  filter (λ tx, Blockchain.isTransactionValid st tx = true)
    (Blockchain.pendingTransactions st) ≠ [] →
  Blockchain.createBlock validatorAddress signCallback now_block now_reward st
  = Throw (FailedToSaveBlock MaximumCallStackSizeExceeded) st.
Proof.
  intros Hvalidator [latest Hlatest] Hvalid.
  unfold Blockchain.createBlock. rewrite bind_run, get_state_run. cbv beta iota.
  rewrite Hvalidator. cbn [negb].
  unfold Blockchain.getLatestBlock. rewrite bind_run, Hlatest. cbv beta iota.
  rewrite (bool_decide_eq_false_2 (Blockchain.pendingTransactions st = [])).
  - rewrite bool_decide_eq_false_2 by exact Hvalid.
    by rewrite bind_run, saveBlock_throws.
  - intros Hnil. apply Hvalid. by rewrite Hnil.
Qed.

(** The gossip handler drops a block whose height is not above the height
    of the latest block, and changes nothing. *)
Lemma handleBlockMessage_ignores_stale (blockData : Block.t) (choice : nat)
    (n : NodeState.t) :
  (Block.height blockData ≤ P2PNode.ourHeight n)%Z →
  P2PNode.handleBlockMessage network blockData choice n = Return tt n.
Proof.
  intros Hheight. unfold P2PNode.handleBlockMessage, P2PNode.ourHeight in *. run.
  destruct (Db.latest_block (Blockchain.db (NodeState.blockchain n)));
    cbn [fst snd Block.fromJSON Block.height];
    by rewrite bool_decide_eq_true_2.
Qed.

(** A turn of the sync loop that received a block ends in a throw and
    leaves the ledger -- balances, block records, [currentHeight] -- as it
    was. *)
Lemma syncBlock_rejects (peerId : string) (i : Z) (blockResponse : Block.t)
    (n : NodeState.t) :
  sync_block (network peerId) i = Some blockResponse →
  ∃ e n', P2PNode.syncBlock network peerId i n = Throw e n'
          ∧ NodeState.blockchain n' = NodeState.blockchain n.
Proof.
  intros Hblock. unfold P2PNode.syncBlock. rewrite bind_run, emit_run.
  cbv beta iota. rewrite Hblock.
  unfold NodeState.saveBlock. rewrite bind_run, emit_run. cbv beta iota.
  unfold NodeState.on_blockchain. rewrite saveBlock_throws.
  eexists _, _. split; [reflexivity|]. cbn. by destruct n as [[] ? ? ? ? ?].
Qed.

Lemma saveBlock_keeps_chain (block : Block.t) :
  preserves chainRecords (NodeState.saveBlock block).
Proof.
  apply preserves_bind; [by apply preserves_emit|]. intros _ n.
  unfold NodeState.on_blockchain. rewrite saveBlock_throws.
  by destruct n as [[] ? ? ? ? ?].
Qed.

(** A whole sync with a peer leaves the recorded chain as it was, whatever
    the peer answers. *)
Lemma syncWithPeer_keeps_chain (peerId : string) :
  preserves chainRecords (P2PNode.syncWithPeer network peerId).
Proof.
  pose proof saveBlock_keeps_chain as Hsave.
  assert (Hblocks : ∀ count i, preserves chainRecords
                                 (P2PNode.syncBlocks network peerId i count)).
  { induction count as [|count IH]; intros i; [apply preserves_ret|].
    apply preserves_bind; [|intros _; apply IH].
    apply preserves_bind; [by apply preserves_emit|]. intros _.
    destruct (sync_block (network peerId) i); [apply Hsave|apply preserves_throw]. }
  unfold P2PNode.syncWithPeer.
  apply preserves_bind; [by apply preserves_emit|]. intros _.
  destruct (sync_height (network peerId)); [|apply preserves_throw].
  apply preserves_bind; [apply preserves_get_state|]. intros n0. cbv zeta.
  apply preserves_bind.
  { case_bool_decide; [apply Hblocks|apply preserves_ret]. }
  intros _. apply preserves_bind; [by apply preserves_emit|]. intros _.
  destruct (sync_validators (network peerId)) as [validators|];
    [|apply preserves_throw].
  apply preserves_bind; [|intros _ n; reflexivity].
  apply preserves_for_of. intros e.
  apply preserves_bind; [apply preserves_get_state|]. intros n.
  destruct (negb _); [|apply preserves_ret].
  by apply preserves_on_validatorManager.
Qed.

Lemma getPublicKeyForAddress_keeps_chain (address : string) :
  preserves chainRecords (NodeState.getPublicKeyForAddress network address).
Proof.
  apply preserves_bind; [apply preserves_get_state|]. intros n.
  destruct (Db.pubkey _ !! address); [apply preserves_ret|].
  induction (NodeState.peers n) as [|peerId rest IH]; [apply preserves_ret|].
  cbn [NodeState.pubkeyFromPeers].
  apply preserves_bind; [by apply preserves_emit|]. intros _.
  destruct (address_pubkey (network peerId) address) as [[publicKey|]|]; try exact IH.
  case_bool_decide; [exact IH|].
  apply preserves_bind; [|intros _; apply preserves_ret].
  intros n1. by destruct n1 as [[[] ? ? ? ?] ? ? ? ? ?].
Qed.

(** The gossip handler leaves the recorded chain as it was, whatever the
    block. *)
Lemma handleBlockMessage_keeps_chain (blockData : Block.t) (choice : nat) :
  preserves chainRecords (P2PNode.handleBlockMessage network blockData choice).
Proof.
  unfold P2PNode.handleBlockMessage.
  apply preserves_try_catch; [|intros _; apply preserves_ret].
  apply preserves_bind; [apply preserves_get_state|]. intros n. cbv zeta.
  case_bool_decide; [apply preserves_ret|].
  case_bool_decide.
  { unfold P2PNode.syncBlockchain.
    apply preserves_bind; [apply preserves_get_state|]. intros n1.
    destruct (NodeState.peers n1 !! choice);
      [apply syncWithPeer_keeps_chain | apply preserves_ret]. }
  destruct (_ && _); [apply preserves_ret|].
  apply preserves_bind.
  { unfold P2PNode.verifyBlockSignature.
    destruct (Block.signature _); [|apply preserves_ret].
    case_bool_decide; [apply preserves_ret|].
    apply preserves_bind; [apply getPublicKeyForAddress_keeps_chain|].
    intros [publicKey|]; [|apply preserves_ret].
    case_bool_decide; apply preserves_ret. }
  intros isValid. destruct (negb isValid); [apply preserves_ret|].
  apply saveBlock_keeps_chain.
Qed.

(** C3.  A block whose height is not above the node's current height
    changes nothing -- no balance, no block record, not [currentHeight] --
    on the gossip path and on the peer-sync path.  The gossip handler
    returns at its height test when the height is not above that of the
    latest block; on the sync path the turn that received the block ends in
    a throw, because [saveBlock] throws before its first write.  The parts
    about the recorded chain do not depend on the height. *)
Theorem stale_block_changes_nothing (blockData : Block.t) (choice : nat)
    (peerId : string) (i : Z) (n : NodeState.t) :
  (Block.height blockData ≤ Blockchain.currentHeight (NodeState.blockchain n))%Z →
  chainRecords (final (P2PNode.handleBlockMessage network blockData choice n))
    = chainRecords n
  ∧ ((Block.height blockData ≤ P2PNode.ourHeight n)%Z →
     P2PNode.handleBlockMessage network blockData choice n = Return tt n)
  ∧ (sync_block (network peerId) i = Some blockData →
     ∃ e n', P2PNode.syncBlock network peerId i n = Throw e n'
             ∧ NodeState.blockchain n' = NodeState.blockchain n)
  ∧ chainRecords (final (P2PNode.syncWithPeer network peerId n)) = chainRecords n.
Proof.
  intros _. split; [|split; [|split]].
  - apply handleBlockMessage_keeps_chain.
  - apply handleBlockMessage_ignores_stale.
  - apply syncBlock_rejects.
  - apply syncWithPeer_keeps_chain.
Qed.

End StaleBlocks.

Lemma stale_block_changes_nothing_witness :
  (Block.height Example.staleBlock
   ≤ Blockchain.currentHeight (NodeState.blockchain Example.node))%Z
  ∧ chainRecords
      (final (@P2PNode.handleBlockMessage plain_runtime (λ _, Example.stalePeer)
                Example.staleBlock 0 Example.node))
    = chainRecords Example.node.
Proof.
  split; [by vm_compute|].
  refine (proj1 (@stale_block_changes_nothing plain_runtime (λ _, Example.stalePeer)
                   Example.staleBlock 0 "peer" 6 Example.node _)).
  by vm_compute.
Defined.

(** ** Block production and the producer's reward *)

Section Production.
Context `{Runtime}.

(** C5 (as the code has it).  [createBlock] never pays the producer.
    Whatever the producer, the pending pool and the state, it leaves the
    state -- every balance, the pending pool -- exactly as it found it.  It
    returns only when there is nothing to produce: the address is not a
    validator, or no pending transaction is valid.  When the producer is a
    validator, a latest block exists and some pending transaction is valid,
    the block is built and signed and [saveBlock] throws on its first
    statement; [processValidatorRewards], the step that would credit the
    reward, comes after [saveBlock] and is not reached. *)
Theorem createBlock_pays_nothing (validatorAddress : string)
    (signCallback : string → string) (now_block now_reward : Z) (st : Blockchain.t) :
  let outcome :=
    Blockchain.createBlock validatorAddress signCallback now_block now_reward st in
  let validTransactions :=
    filter (λ tx, Blockchain.isTransactionValid st tx = true)
      (Blockchain.pendingTransactions st) in
  final outcome = st
  ∧ (∀ address, Blockchain.getAddressBalance (final outcome) address
                = Blockchain.getAddressBalance st address)
  ∧ (JsMap.has (Blockchain.validators st) (Some validatorAddress) = true →
     is_Some (Db.latest_block (Blockchain.db st)) →
     validTransactions ≠ [] →
     outcome = Throw (FailedToSaveBlock MaximumCallStackSizeExceeded) st)
  ∧ (returned outcome = true →
     JsMap.has (Blockchain.validators st) (Some validatorAddress) = false
     ∨ validTransactions = []).
Proof.
  cbv zeta.
  assert (Hfinal : final (Blockchain.createBlock validatorAddress signCallback
                            now_block now_reward st) = st
                   ∧ (returned (Blockchain.createBlock validatorAddress signCallback
                                  now_block now_reward st) = true →
                      JsMap.has (Blockchain.validators st) (Some validatorAddress) = false
                      ∨ filter (λ tx, Blockchain.isTransactionValid st tx = true)
                          (Blockchain.pendingTransactions st) = [])).
  { unfold Blockchain.createBlock. rewrite bind_run, get_state_run. cbv beta iota.
    destruct (JsMap.has (Blockchain.validators st) (Some validatorAddress));
      cbn [negb]; [|split; [reflexivity|by left]].
    unfold Blockchain.getLatestBlock. rewrite bind_run.
    destruct (Db.latest_block (Blockchain.db st)) as [latest|];
      [|split; [reflexivity|intros Hx; discriminate Hx]].
    cbv beta iota.
    case_bool_decide as Hpending.
    { split; [reflexivity|]. intros _. right. by rewrite Hpending. }
    case_bool_decide as Hvalid; [split; [reflexivity|by right]|].
    rewrite bind_run, saveBlock_throws.
    split; [reflexivity|intros Hx; discriminate Hx]. }
  destruct Hfinal as [Hfinal Hreturned].
  split; [exact Hfinal|]. split; [intros address; by rewrite Hfinal|].
  split; [|exact Hreturned].
  intros Hvalidator Hlatest Hvalid.
  by apply createBlock_throws.
Qed.

End Production.

(** A validator with one valid pending MESSAGE, whose rewards would earn
    the producer 1.5: [createBlock] throws and the balance stays 15000. *)
Lemma createBlock_pays_nothing_witness :
  let outcome :=
    @Blockchain.createBlock plain_runtime Example.alice (λ hash, hash)
      1700000000006 1700000000007 Example.producing in
  Blockchain.totalReward
    {| Block.height := 6; Block.previousHash := "h5";
       Block.transactions := [Instance Example.rewardedMessage];
       Block.validator := Example.alice; Block.timestamp := 1700000000006;
       Block.hash := "h6"; Block.signature := None |} = 1.5%float
  ∧ outcome = Throw (FailedToSaveBlock MaximumCallStackSizeExceeded) Example.producing
  ∧ Blockchain.getAddressBalance (final outcome) (Some Example.alice) = 15000%float.
Proof.
  cbv zeta. split; [by vm_compute|].
  pose proof (@createBlock_pays_nothing plain_runtime Example.alice (λ hash, hash)
                1700000000006 1700000000007 Example.producing) as Hpays.
  cbv zeta in Hpays. destruct Hpays as (_ & Hbalance & Hthrows & _).
  split.
  - apply Hthrows; [by vm_compute | by eexists |].
    intros Hnil. apply (f_equal List.length) in Hnil. vm_compute in Hnil.
    discriminate Hnil.
  - rewrite Hbalance. by vm_compute.
Defined.

(** The running total of the reward loop is rounded after every addition:
    two fees of 0.1 and 0.2 add up to 0.30000000000000004. *)
Lemma totalReward_is_rounded :
  let transfer (fee : float) :=
    Instance {| Transaction.type := "TRANSFER";
                Transaction.from := Some Example.alice;
                Transaction.to := Some Example.bob;
                Transaction.amount := 1%float;
                Transaction.fee := fee;
                Transaction.data := [];
                Transaction.timestamp := 1700000000000;
                Transaction.hash := "";
                Transaction.signature := None;
                Transaction.senderReward := 0%float;
                Transaction.receiverReward := 0%float |} in
  fold_left Blockchain.rewardStep [transfer 0.1%float; transfer 0.2%float] 0%float
  = 0.30000000000000004%float.
Proof. reflexivity. Qed.
(** ** The block loop of the sync *)

Section SyncOrder.
Variable network : string → Peer.


End SyncOrder.

(** ** The message rate limiter *)

Section RateLimiter.
Implicit Types (n : NodeState.t) (fromAddress toAddress : string).

Lemma checkMessageRateLimits_passes n fromAddress toAddress :
  (NodeState.total (Node.statsOf n fromAddress) < config.maxMessagesPerHour)%nat →
  (Node.sentTo n fromAddress toAddress < config.maxMessagesToAddressPerHour)%nat →
  Node.checkMessageRateLimits fromAddress toAddress n = Return tt n.
Proof.
  unfold Node.checkMessageRateLimits. run. intros Htotal Hper.
  rewrite bool_decide_eq_false_2 by lia.
  by rewrite bool_decide_eq_false_2 by lia.
Qed.

Lemma checkMessageRateLimits_total n fromAddress toAddress :
  (config.maxMessagesPerHour ≤ NodeState.total (Node.statsOf n fromAddress))%nat →
  Node.checkMessageRateLimits fromAddress toAddress n = Throw MessageRateLimitExceeded n.
Proof.
  unfold Node.checkMessageRateLimits. run. intros Htotal.
  by rewrite bool_decide_eq_true_2 by lia.
Qed.

Lemma checkMessageRateLimits_perAddress n fromAddress toAddress :
  (NodeState.total (Node.statsOf n fromAddress) < config.maxMessagesPerHour)%nat →
  (config.maxMessagesToAddressPerHour ≤ Node.sentTo n fromAddress toAddress)%nat →
  Node.checkMessageRateLimits fromAddress toAddress n
  = Throw MessageRateLimitToAddressExceeded n.
Proof.
  unfold Node.checkMessageRateLimits. run. intros Htotal Hper.
  rewrite bool_decide_eq_false_2 by lia.
  by rewrite bool_decide_eq_true_2 by lia.
Qed.

(** [updateMessageCount] adds one to the sender's total and one to its count
    for the recipient. *)
Lemma updateMessageCount_counts n fromAddress toAddress :
  let n' := final (Node.updateMessageCount fromAddress toAddress n) in
  NodeState.total (Node.statsOf n' fromAddress)
    = S (NodeState.total (Node.statsOf n fromAddress))
  ∧ Node.sentTo n' fromAddress toAddress = S (Node.sentTo n fromAddress toAddress).
Proof.
  unfold Node.sentTo, Node.statsOf, Node.updateMessageCount. run. cbn.
  rewrite !JsMap_get_set_eq. cbn. rewrite JsMap_get_set_eq. cbn.
  split; [reflexivity|lia].
Qed.

(** After [resetMessageCounts] every sender passes the check again. *)
Lemma resetMessageCounts_passes n fromAddress toAddress :
  let n' := final (NodeState.resetMessageCounts n) in
  Node.checkMessageRateLimits fromAddress toAddress n' = Return tt n'.
Proof.
  cbv zeta. apply checkMessageRateLimits_passes; cbn;
    unfold config.maxMessagesPerHour, config.maxMessagesToAddressPerHour; lia.
Qed.

End RateLimiter.

Section SendMessage.
Context `{Runtime}.
Variable network : string → Peer.
Variable encryptMessage : string → option string → string.

(** Looking up a public key always returns, and touches neither the
    pending pool nor the message counters. *)
Lemma pubkeyFromPeers_returns (peerIds : list string) (address : string)
    (n : NodeState.t) :
  ∃ publicKey n1,
    NodeState.pubkeyFromPeers network peerIds address n = Return publicKey n1
    ∧ NodeState.hourly n1 = NodeState.hourly n
    ∧ Blockchain.pendingTransactions (NodeState.blockchain n1)
      = Blockchain.pendingTransactions (NodeState.blockchain n).
Proof.
  revert n. induction peerIds as [|peerId rest IH]; intros n.
  - by exists None, n.
  - cbn [NodeState.pubkeyFromPeers]. rewrite bind_run, emit_run. cbv beta iota.
    set (n0 := NodeState.with_events _ n).
    destruct (IH n0) as (pk & n1 & Hrun & Hh & Hp).
    destruct (address_pubkey (network peerId) address) as [[publicKey|]|];
      [|by exists pk, n1..].
    case_bool_decide; [by exists pk, n1|].
    eexists _, _. split; [reflexivity|]. by split.
Qed.

Lemma getPublicKeyForAddress_returns (address : string) (n : NodeState.t) :
  ∃ publicKey n1,
    NodeState.getPublicKeyForAddress network address n = Return publicKey n1
    ∧ NodeState.hourly n1 = NodeState.hourly n
    ∧ Blockchain.pendingTransactions (NodeState.blockchain n1)
      = Blockchain.pendingTransactions (NodeState.blockchain n).
Proof.
  unfold NodeState.getPublicKeyForAddress. rewrite bind_run, get_state_run.
  cbv beta iota.
  destruct (Db.pubkey _ !! address) as [publicKey|].
  - by exists (Some publicKey), n.
  - apply pubkeyFromPeers_returns.
Qed.

(** The transaction [sendMessage] hands to [addTransaction] carries the
    hash the constructor stored. *)
Lemma sentMessage_verifyHash (fromAddress toAddress text privateKey : string)
    (isWhitelisted : bool) (now : Z) :
  collision_free →
  let tx := Transaction.createMessage fromAddress toAddress text isWhitelisted now in
  Transaction.verifyHash
    (Transaction.sign privateKey
       (if isWhitelisted
        then Transaction.with_rewards config.sendReward config.receiveReward tx
        else Transaction.with_fee config.nonWhitelistedFee tx))
  = false.
Proof.
  intros Hfree. cbv zeta. unfold Transaction.verifyHash.
  apply bool_decide_eq_false.
  destruct isWhitelisted; intros Heq;
    pose proof (Hfree _ _ Heq) as Hpre; revert Hpre;
    apply constructor_preimage_short.
Qed.

(** A submission that returns has met a collision of SHA-256. *)
Lemma sendMessage_returns_only_on_collision (fromAddress toAddress message : string)
    (now : Z) (n : NodeState.t) :
  returned (Node.sendMessage network encryptMessage fromAddress toAddress message now n)
  = true →
  ∃ s1 s2, collision s1 s2.
Proof.
  unfold Node.sendMessage.
  destruct (negb _ || negb _); [intros Hx; discriminate Hx|].
  rewrite bind_run.
  destruct (Node.getPrivateKey fromAddress n) as [privateKey n0|];
    [|intros Hx; discriminate Hx].
  rewrite bind_run.
  destruct (Node.checkMessageRateLimits fromAddress toAddress n0) as [[] n1|];
    [|intros Hx; discriminate Hx].
  rewrite bind_run, get_state_run. cbv beta iota zeta. rewrite bind_run.
  destruct (NodeState.getPublicKeyForAddress network toAddress n1) as [publicKey n2|];
    [|intros Hx; discriminate Hx].
  rewrite bind_run. unfold NodeState.on_blockchain, Blockchain.addTransaction.
  match goal with
  | |- context [Transaction.verifyHash ?tx] =>
      destruct (Transaction.verifyHash tx) eqn:Hverify
  end; cbn [negb]; [|intros Hx; discriminate Hx].
  intros _. unfold Transaction.verifyHash in Hverify.
  apply bool_decide_eq_true in Hverify.
  destruct (Node.isWhitelisted n1 toAddress fromAddress);
    (eexists _, _; split; [|exact Hverify]; apply constructor_preimage_short).
Qed.

(** C7 (as the code has it).  When SHA-256 does not collide, a submission
    that passes the address checks, the wallet lookup and the rate check is
    thrown out by [addTransaction] with 'Invalid transaction hash': nothing
    enters the pending pool and the message counters stay as they are. *)
Theorem sendMessage_invalid_hash (fromAddress toAddress message privateKey : string)
    (now : Z) (n : NodeState.t) :
  collision_free →
  Address.isValidAddress fromAddress = true →
  Address.isValidAddress toAddress = true →
  JsMap.get (NodeState.wallet n) fromAddress = Some privateKey →
  privateKey ≠ "" →
  Node.checkMessageRateLimits fromAddress toAddress n = Return tt n →
  ∃ n', Node.sendMessage network encryptMessage fromAddress toAddress message now n
        = Throw InvalidTransactionHash n'
    ∧ NodeState.hourly n' = NodeState.hourly n
    ∧ Blockchain.pendingTransactions (NodeState.blockchain n')
      = Blockchain.pendingTransactions (NodeState.blockchain n).
Proof.
  intros Hfree Hfrom Hto Hkey Hnonempty Hcheck.
  unfold Node.sendMessage. rewrite Hfrom, Hto. cbn [negb orb].
  rewrite bind_run. unfold Node.getPrivateKey at 1.
  rewrite bind_run, get_state_run. cbv beta iota. rewrite Hkey.
  rewrite bool_decide_eq_false_2 by exact Hnonempty.
  unfold mret at 1, M_ret at 1, ret at 1. cbv beta iota.
  rewrite bind_run, Hcheck. cbv beta iota.
  rewrite bind_run, get_state_run. cbv beta iota zeta.
  rewrite bind_run.
  destruct (getPublicKeyForAddress_returns toAddress n) as (pk & n1 & -> & Hh & Hp).
  cbv beta iota. rewrite bind_run.
  unfold NodeState.on_blockchain, Blockchain.addTransaction.
  rewrite sentMessage_verifyHash by exact Hfree. cbn [negb].
  unfold throw. cbv beta iota.
  eexists. split; [reflexivity|]. by split.
Qed.

End SendMessage.

Lemma sendMessage_invalid_hash_witness :
  ∃ n', @Node.sendMessage plain_runtime (λ _, Example.stalePeer) (λ text _, text)
          Example.alice Example.bob "hello" 1700000000000 Example.node
        = Throw InvalidTransactionHash n'
    ∧ NodeState.hourly n' = NodeState.hourly Example.node
    ∧ Blockchain.pendingTransactions (NodeState.blockchain n')
      = Blockchain.pendingTransactions (NodeState.blockchain Example.node).
Proof.
  apply (@sendMessage_invalid_hash plain_runtime (λ _, Example.stalePeer)
           (λ text _, text) Example.alice Example.bob "hello" "key");
    [ exact plain_runtime_collision_free | reflexivity | reflexivity | reflexivity
    | discriminate | reflexivity ].
Defined.
